(** * tap-closeio: the incremental sync engine of [tap_closeio/streams.py]

    A shallow embedding of the stream strategies ([paginated_sync],
    [sync_leads], [sync_activities], [sync_event_log]) together with the
    properties of bookmarks, offsets and request parameters that the
    specification of the connector states about them. *)

From Stdlib Require Import ZArith Ascii String.
From Stdlib Require OrderedTypeEx.
From stdpp Require Import base option list gmap strings fin_maps pretty.

Local Open Scope string_scope.
Local Open Scope Z_scope.

(** ** Stream identifiers and the module-level tables *)

Module IDS.
(** Modelled from the spec: [schemas.IDS] is not among the sources; the
    stream identifiers are a closed enumeration, here the six constants that
    [streams.py] refers to. *)
Inductive t := CUSTOM_FIELDS | LEADS | ACTIVITIES | TASKS | USERS | EVENT_LOG.

Definition to_nat (i : t) : nat :=
  match i with
  | CUSTOM_FIELDS => 0 | LEADS => 1 | ACTIVITIES => 2
  | TASKS => 3 | USERS => 4 | EVENT_LOG => 5
  end%nat.

Definition of_nat (n : nat) : option t :=
  match n with
  | 0 => Some CUSTOM_FIELDS | 1 => Some LEADS | 2 => Some ACTIVITIES
  | 3 => Some TASKS | 4 => Some USERS | 5 => Some EVENT_LOG
  | _ => None
  end%nat.

Definition of_to_nat (i : t) : of_nat (to_nat i) = Some i :=
  match i with
  | CUSTOM_FIELDS | LEADS | ACTIVITIES | TASKS | USERS | EVENT_LOG => eq_refl
  end.
End IDS.

#[global] Instance IDS_eq_dec : EqDecision IDS.t.
Proof. solve_decision. Defined.

#[global] Instance IDS_countable : Countable IDS.t :=
  inj_countable IDS.to_nat IDS.of_nat IDS.of_to_nat.

Definition PATHS (tap_stream_id : IDS.t) : string :=
  match tap_stream_id with
  | IDS.CUSTOM_FIELDS => "/custom_fields/lead/"
  | IDS.LEADS => "/lead/"
  | IDS.ACTIVITIES => "/activity/"
  | IDS.TASKS => "/task/"
  | IDS.USERS => "/user/"
  | IDS.EVENT_LOG => "/event/"
  end.

Definition BOOK_KEYS (tap_stream_id : IDS.t) : string :=
  match tap_stream_id with
  | IDS.ACTIVITIES => "date_created"
  | _ => "date_updated"
  end.

(** [bookmark(tap_stream_id)]: the path of a stream's bookmark. *)
Definition bookmark (tap_stream_id : IDS.t) : IDS.t * string :=
  (tap_stream_id, BOOK_KEYS tap_stream_id).

(** ** JSON values and records *)

(** A decoded JSON value, as Python holds it. Floats are left out: no
    operation of [streams.py] looks at one. *)
Local Unset Elimination Schemes.
Inductive value :=
| VNone
| VBool (b : bool)
| VInt (z : Z)
| VStr (s : string)
| VList (l : list value)
| VDict (d : gmap string value).
Local Set Elimination Schemes.

(** A record is a Python [dict] from field names to values. *)
Abbreviation Record := (gmap string value).

(** Python's truth value of an object, as [not x] and [if x] read it. *)
Definition truthy (v : value) : bool :=
  match v with
  | VNone => false
  | VBool b => b
  | VInt z => negb (Z.eqb z 0)
  | VStr s => negb (String.eqb s EmptyString)
  | VList l => match l with [] => false | _ => true end
  | VDict d => negb (bool_decide (d = ∅))
  end.

(** ** The order of Python strings

    [a < b] on [str] compares code points from the left; on the byte strings
    of Rocq this is [String.compare]. *)
Definition str_lt (a b : string) : bool := String.ltb a b.
Definition str_gt (a b : string) : bool := String.ltb b a.
Definition str_ge (a b : string) : bool := negb (String.ltb a b).
Definition str_le (a b : string) : bool := negb (String.ltb b a).

(** Python's [min(a, b)]: [b] only when it is strictly smaller. *)
Definition str_min (a b : string) : string := if str_lt b a then b else a.

(** ** Dates and times

    A [datetime] object holds the civil fields of an instant (UTC throughout:
    every instant the tap handles is in UTC). *)
Module datetime.

Record t := mk {
  year : Z; month : Z; day : Z;
  hour : Z; minute : Z; second : Z; microsecond : Z
}.

Definition digit (n : Z) : ascii := ascii_of_nat (48 + Z.to_nat (n mod 10)).

(** [n] in decimal on [width] digits, padded with zeros on the left. *)
Fixpoint pad (width : nat) (n : Z) : string :=
  match width with
  | O => EmptyString
  | S w => pad w (n / 10) ++ String (digit n) EmptyString
  end.

Definition directive (c : ascii) (dt : t) : string :=
  match c with
  | "Y"%char => pad 4 (year dt)
  | "m"%char => pad 2 (month dt)
  | "d"%char => pad 2 (day dt)
  | "H"%char => pad 2 (hour dt)
  | "M"%char => pad 2 (minute dt)
  | "S"%char => pad 2 (second dt)
  | "f"%char => pad 6 (microsecond dt)
  | _ => String "%"%char (String c EmptyString)
  end.

(** [dt.strftime(format)] for the directives the tap uses. *)
Fixpoint strftime (dt : t) (format : string) : string :=
  match format with
  | EmptyString => EmptyString
  | String "%"%char (String c rest) => directive c dt ++ strftime dt rest
  | String c rest => String c (strftime dt rest)
  end.

(** [dt.replace(second=0, microsecond=0)] and [dt.replace(microsecond=0)]. *)
Definition truncate_to_minute (dt : t) : t :=
  mk (year dt) (month dt) (day dt) (hour dt) (minute dt) 0 0.
Definition truncate_to_second (dt : t) : t :=
  mk (year dt) (month dt) (day dt) (hour dt) (minute dt) (second dt) 0.

(** Days since 1970-01-01 of a date of the proleptic Gregorian calendar,
    and back. *)
Definition days_from_civil (y m d : Z) : Z :=
  let y := if m <=? 2 then y - 1 else y in
  let era := y / 400 in
  let yoe := y - era * 400 in
  let doy := (153 * (if 2 <? m then m - 3 else m + 9) + 2) / 5 + d - 1 in
  let doe := yoe * 365 + yoe / 4 - yoe / 100 + doy in
  era * 146097 + doe - 719468.

Definition civil_from_days (z : Z) : Z * Z * Z :=
  let z := z + 719468 in
  let era := z / 146097 in
  let doe := z - era * 146097 in
  let yoe := (doe - doe / 1460 + doe / 36524 - doe / 146096) / 365 in
  let doy := doe - (365 * yoe + yoe / 4 - yoe / 100) in
  let mp := (5 * doy + 2) / 153 in
  let d := doy - (153 * mp + 2) / 5 + 1 in
  let m := if mp <? 10 then mp + 3 else mp - 9 in
  ((if m <=? 2 then yoe + era * 400 + 1 else yoe + era * 400), m, d).

Definition to_microseconds (dt : t) : Z :=
  (((days_from_civil (year dt) (month dt) (day dt) * 24 + hour dt) * 60
    + minute dt) * 60 + second dt) * 1000000 + microsecond dt.

Definition of_microseconds (us : Z) : t :=
  let secs := us / 1000000 in
  let days := secs / 86400 in
  let sod := secs mod 86400 in
  let '(y, m, d) := civil_from_days days in
  mk y m d (sod / 3600) ((sod / 60) mod 60) (sod mod 60) (us mod 1000000).

(** [dt - timedelta(seconds=s)]. *)
Definition sub_seconds (dt : t) (s : Z) : t :=
  of_microseconds (to_microseconds dt - s * 1000000).

(** *** Reading an ISO-8601 instant

    [YYYY-MM-DDTHH:MM:SS], then optionally a fraction of one to six digits,
    then optionally [Z]: the shapes the tap itself writes. *)
Definition digit_value (c : ascii) : option Z :=
  let n := Z.of_nat (nat_of_ascii c) in
  if (48 <=? n) && (n <=? 57) then Some (n - 48) else None.

Fixpoint number (width : nat) (acc : Z) (s : string) : option (Z * string) :=
  match width with
  | O => Some (acc, s)
  | S w =>
      match s with
      | String c rest =>
          d ← digit_value c; number w (acc * 10 + d) rest
      | EmptyString => None
      end
  end.

Definition expect (c : ascii) (s : string) : option string :=
  match s with
  | String c' rest => if Ascii.eqb c c' then Some rest else None
  | EmptyString => None
  end.

(** The digits of a fraction, scaled to microseconds. *)
Fixpoint fraction (width : nat) (acc : Z) (s : string) : Z * string :=
  match width with
  | O => (acc, s)
  | S w =>
      match s with
      | String c rest =>
          match digit_value c with
          | Some d => fraction w (acc + d * 10 ^ Z.of_nat w) rest
          | None => (acc, s)
          end
      | EmptyString => (acc, s)
      end
  end.

Definition parse_iso (s : string) : option t :=
  '(y, s) ← number 4 0 s; s ← expect "-" s;
  '(m, s) ← number 2 0 s; s ← expect "-" s;
  '(d, s) ← number 2 0 s; s ← expect "T" s;
  '(h, s) ← number 2 0 s; s ← expect ":" s;
  '(mi, s) ← number 2 0 s; s ← expect ":" s;
  '(sec, s) ← number 2 0 s;
  let '(us, s) :=
    match s with
    | String "."%char (String c rest) =>
        match digit_value c with
        | Some _ => fraction 6 0 (String c rest)
        | None => (0, s)
        end
    | _ => (0, s)
    end in
  match s with
  | EmptyString | "Z" => Some (mk y m d h mi sec us)
  | _ => None
  end.

End datetime.

(** [singer.utils.strftime]: the format in which bookmarks are written. *)
Definition singer_strftime (dt : datetime.t) : string :=
  datetime.strftime dt "%Y-%m-%dT%H:%M:%S.%fZ".

(** ** Exceptions and outcomes *)

Inductive Exn :=
| KeyError (key : string)
| TypeError
| ParserError (text : string)
| TransportError (info : string).

(** What running a piece of the tap gives: a value, an uncaught exception,
    or, for the [while True] loop of the event log run with bounded fuel,
    no answer yet. *)
Inductive Outcome (A : Type) :=
| Return (a : A)
| Raised (e : Exn)
| Unfinished.
Arguments Return {A} a.
Arguments Raised {A} e.
Arguments Unfinished {A}.

Definition is_return {A} (o : Outcome A) : bool :=
  match o with Return _ => true | _ => false end.

(** ** Requests, pages and the transport *)

Record Request := mkRequest {
  req_path : string;
  req_params : gmap string value
}.

(** Modelled from the spec: [http.create_get_request] is not among the
    sources; a request descriptor is a GET of a path with parameters. *)
Definition create_get_request (path : string) (params : gmap string value) : Request :=
  mkRequest path params.

(** [create_request(tap_stream_id, params=None)]; [params or {}] is the
    identity on a mapping. *)
Definition create_request (tap_stream_id : IDS.t) (params : gmap string value) : Request :=
  create_get_request (PATHS tap_stream_id) params.

Record Page := mkPage {
  records : list Record;
  next_skip : Z
}.

(** What iterating the generator [paginate(...)] gives: pages one after the
    other, until it is exhausted or a request of the transport raises. *)
Inductive PageStream :=
| Exhausted
| Yield (page : Page) (rest : PageStream)
| Fails (e : Exn).

(** The collaborators of [streams.py] whose code lies outside it: the
    transport ([http.paginate], [client.request_with_handling]), the record
    transformer ([transform.transform_dts], [transform.format_leads]) and the
    library functions [json.dumps] and [pendulum.parse]. *)
Class Collaborators := {
  Client : Type;
  DtPaths : Type;
  paginate : Client -> IDS.t -> Request -> Z -> PageStream;
  request_with_handling : Client -> IDS.t -> Request -> Outcome Record * Client;
  transform_dts : list Record -> DtPaths -> list Record;
  format_leads : list Record -> list Record;
  json_dumps : value -> string;
  pendulum_parse : string -> option datetime.t
}.

(** ** The context: configuration, bookmark/offset state, output *)

Record State := mkState {
  bookmarks : gmap (IDS.t * string) string;
  offsets : gmap (IDS.t * string) Z
}.

Record Config := mkConfig {
  start_date : string;
  activities_window_seconds : option Z
}.

(** What a run does that can be observed from outside, oldest first. *)
Inductive Event :=
| EPaginate (tap_stream_id : IDS.t) (request : Request) (skip : Z)
| EPage (tap_stream_id : IDS.t) (page : Page)
| ERequest (tap_stream_id : IDS.t) (request : Request) (response : Outcome Record)
| ERecord (tap_stream_id : IDS.t) (record : Record)
| ECounter (tap_stream_id : IDS.t) (count : nat)
| EState (flushed : State).

Section Streams.
Context `{Collaborators}.

Record Ctx := mkCtx {
  config : Config;
  schema_dt_paths : IDS.t -> DtPaths;
  client : Client;
  state : State;
  trace : list Event
}.

(** *** A state and exception monad over the context

    An exception keeps the changes made to the context before it. *)
Definition M (A : Type) : Type := Ctx -> Outcome A * Ctx.

Definition ret {A} (a : A) : M A := fun ctx => (Return a, ctx).
Definition raise {A} (e : Exn) : M A := fun ctx => (Raised e, ctx).
Definition unfinished {A} : M A := fun ctx => (Unfinished, ctx).
Definition bind {A B} (m : M A) (k : A -> M B) : M B :=
  fun ctx =>
    match m ctx with
    | (Return a, ctx') => k a ctx'
    | (Raised e, ctx') => (Raised e, ctx')
    | (Unfinished, ctx') => (Unfinished, ctx')
    end.
Definition lift {A} (o : Outcome A) : M A := fun ctx => (o, ctx).
Definition reads {A} (f : Ctx -> A) : M A := fun ctx => (Return (f ctx), ctx).
Definition modify (f : Ctx -> Ctx) : M unit := fun ctx => (Return tt, f ctx).

End Streams.

Declare Scope sync_scope.
Delimit Scope sync_scope with sync.
Notation "x <- c ;; k" := (bind c (fun x => k))
  (at level 100, c at next level, right associativity) : sync_scope.
Notation "c ;; k" := (bind c (fun _ => k))
  (at level 100, right associativity) : sync_scope.

Section Sync.
Context `{Collaborators}.
Local Open Scope sync_scope.

Definition with_state (ctx : Ctx) (st : State) : Ctx :=
  mkCtx (config ctx) (schema_dt_paths ctx) (client ctx) st (trace ctx).
Definition emit (events : list Event) : M unit :=
  modify (fun ctx =>
    mkCtx (config ctx) (schema_dt_paths ctx) (client ctx) (state ctx)
          (trace ctx ++ events)).

(** *** The methods of the context

    The class of the context is not among the sources; its methods follow
    what the specification says of them. *)

(** Modelled from the spec: [ctx.get_offset(key)], the offset stored under
    (stream id, "skip"), or nothing. *)
Definition get_offset (path : IDS.t * string) : M (option Z) :=
  reads (fun ctx => offsets (state ctx) !! path).

(** Modelled from the spec: [ctx.set_offset(key, value)]. *)
Definition set_offset (path : IDS.t * string) (val : Z) : M unit :=
  modify (fun ctx =>
    with_state ctx (mkState (bookmarks (state ctx))
                            (<[path := val]> (offsets (state ctx))))).

(** Modelled from the spec: [ctx.clear_offsets(stream_id)], which drops
    every offset of the stream. *)
Definition clear_offsets (tap_stream_id : IDS.t) : M unit :=
  modify (fun ctx =>
    with_state ctx
      (mkState (bookmarks (state ctx))
               (filter (fun kv => kv.1.1 ≠ tap_stream_id) (offsets (state ctx))))).

(** Modelled from the spec: [ctx.get_bookmark(key)], the watermark stored
    under (stream id, field name), or nothing. *)
Definition get_bookmark (path : IDS.t * string) : M (option string) :=
  reads (fun ctx => bookmarks (state ctx) !! path).

(** Modelled from the spec: [ctx.set_bookmark(key, value)]. *)
Definition set_bookmark (path : IDS.t * string) (val : string) : M unit :=
  modify (fun ctx =>
    with_state ctx (mkState (<[path := val]> (bookmarks (state ctx)))
                            (offsets (state ctx)))).

(** Modelled from the spec: [ctx.update_start_date_bookmark(key)], which
    returns the effective start watermark, seeding the bookmark from the
    configured start date when the stream has none. *)
Definition update_start_date_bookmark (path : IDS.t * string) : M string :=
  val <- get_bookmark path ;;
  match val with
  | Some v =>
      if String.eqb v EmptyString
      then (d <- reads (fun ctx => start_date (config ctx)) ;;
            set_bookmark path d ;; ret d)
      else ret v
  | None =>
      d <- reads (fun ctx => start_date (config ctx)) ;;
      set_bookmark path d ;; ret d
  end.

(** Modelled from the spec: [ctx.write_state()], which flushes the state as
    it is. *)
Definition write_state : M unit :=
  st <- reads state ;; emit [EState st].

(** The state of the last flush, if any: what a restart would load. *)
Fixpoint last_state (events : list Event) (seen : option State) : option State :=
  match events with
  | [] => seen
  | EState st :: rest => last_state rest (Some st)
  | _ :: rest => last_state rest seen
  end.
Definition persisted (ctx : Ctx) : option State := last_state (trace ctx) None.

(** *** Reading records *)

(** [record[key]]. *)
Definition getitem (record : Record) (key : string) : Outcome value :=
  match record !! key with
  | Some v => Return v
  | None => Raised (KeyError key)
  end.

(** [v >= s] and [v > s] for a string [s]: defined between strings only. *)
Definition value_ge (v : value) (s : string) : Outcome bool :=
  match v with VStr a => Return (str_ge a s) | _ => Raised TypeError end.
Definition value_gt (v : value) (s : string) : Outcome (option string) :=
  match v with
  | VStr a => Return (if str_gt a s then Some a else None)
  | _ => Raised TypeError
  end.

Definition obind {A B} (o : Outcome A) (k : A -> Outcome B) : Outcome B :=
  match o with
  | Return a => k a
  | Raised e => Raised e
  | Unfinished => Unfinished
  end.

Fixpoint new_max_bookmark (max_bookmark : string) (records : list Record)
    (key : string) : Outcome string :=
  match records with
  | [] => Return max_bookmark
  | record :: rest =>
      obind (getitem record key) (fun v =>
      obind (value_gt v max_bookmark) (fun newer =>
      new_max_bookmark (default max_bookmark newer) rest key))
  end.

(** [[rec for rec in records if rec[bookmark_key] >= start_date]]. *)
Fixpoint records_from (records : list Record) (bookmark_key start : string)
    : Outcome (list Record) :=
  match records with
  | [] => Return []
  | rec :: rest =>
      obind (getitem rec bookmark_key) (fun v =>
      obind (value_ge v start) (fun keep =>
      obind (records_from rest bookmark_key start) (fun kept =>
      Return (if keep then rec :: kept else kept))))
  end.

Definition format_dts (tap_stream_id : IDS.t) (records : list Record)
    : M (list Record) :=
  paths <- reads (fun ctx => schema_dt_paths ctx tap_stream_id) ;;
  ret (transform_dts records paths).

Definition metrics (tap_stream_id : IDS.t) (page : list Record) : M unit :=
  emit [ECounter tap_stream_id (length page)].

Definition write_records (tap_stream_id : IDS.t) (page : list Record) : M unit :=
  emit (map (ERecord tap_stream_id) page) ;;
  metrics tap_stream_id page.

(** [FORMATTERS.get(tap_stream_id, (lambda x: x))]. *)
Definition FORMATTERS_get (tap_stream_id : IDS.t) : list Record -> list Record :=
  match tap_stream_id with
  | IDS.LEADS => format_leads
  | _ => fun x => x
  end.

(** *** [paginated_sync] *)

(** The body of [for page in paginate(...)], over what the generator
    gives. *)
Fixpoint for_pages (tap_stream_id : IDS.t) (start : string)
    (pages : PageStream) (max_bookmark : string) : M string :=
  match pages with
  | Exhausted => ret max_bookmark
  | Fails e => raise e
  | Yield page rest =>
      emit [EPage tap_stream_id page] ;;
      formatted <- format_dts tap_stream_id (records page) ;;
      let records := FORMATTERS_get tap_stream_id formatted in
      to_write <- lift (records_from records (BOOK_KEYS tap_stream_id) start) ;;
      max_bookmark <- lift (new_max_bookmark max_bookmark records
                                             (BOOK_KEYS tap_stream_id)) ;;
      write_records tap_stream_id to_write ;;
      set_offset (tap_stream_id, "skip") (next_skip page) ;;
      write_state ;;
      for_pages tap_stream_id start rest max_bookmark
  end.

Definition call_paginate (tap_stream_id : IDS.t) (request : Request) (skip : Z)
    : M PageStream :=
  emit [EPaginate tap_stream_id request skip] ;;
  reads (fun ctx => paginate (client ctx) tap_stream_id request skip).

Definition paginated_sync (tap_stream_id : IDS.t) (request : Request)
    (start : string) : M unit :=
  let offset := (tap_stream_id, "skip") in
  stored <- get_offset offset ;;
  let skip := default 0 stored in
  pages <- call_paginate tap_stream_id request skip ;;
  max_bookmark <- for_pages tap_stream_id start pages start ;;
  clear_offsets tap_stream_id ;;
  set_bookmark (bookmark tap_stream_id) max_bookmark ;;
  write_state.

Definition basic_paginator (tap_stream_id : IDS.t) : M unit :=
  let request := create_request tap_stream_id ∅ in
  start <- update_start_date_bookmark (bookmark tap_stream_id) ;;
  paginated_sync tap_stream_id request start.

(** [pendulum.parse(text)], which raises on a text it cannot read. *)
Definition parse (text : string) : M datetime.t :=
  match pendulum_parse text with
  | Some dt => ret dt
  | None => raise (ParserError text)
  end.

Definition dquote : string := String (ascii_of_nat 34) EmptyString.

Definition sync_leads : M unit :=
  start <- update_start_date_bookmark (bookmark IDS.LEADS) ;;
  dt <- parse start ;;
  let formatted_start := datetime.strftime dt "%Y-%m-%dT%H:%M" in
  let query := "date_updated>=" ++ dquote ++ formatted_start ++ dquote
               ++ " sort:date_updated" in
  let request := create_request IDS.LEADS {["query" := VStr query]} in
  paginated_sync IDS.LEADS request start.

Definition sync_activities : M unit :=
  start_date_str <- update_start_date_bookmark (bookmark IDS.ACTIVITIES) ;;
  dt <- parse start_date_str ;;
  offset_secs <- reads (fun ctx =>
                   default 0 (activities_window_seconds (config ctx))) ;;
  let dt := datetime.sub_seconds dt offset_secs in
  let formatted_start := datetime.strftime dt "%Y-%m-%dT%H:%M:%S" in
  let params : gmap string value :=
    {["date_created__gt" := VStr formatted_start]} in
  let request := create_request IDS.ACTIVITIES params in
  paginated_sync IDS.ACTIVITIES request formatted_start.

(** *** [sync_event_log] *)

(** [ctx.client.request_with_handling(tap_stream_id, request)]. *)
Definition request (tap_stream_id : IDS.t) (req : Request) : M Record :=
  fun ctx =>
    let '(response, c) := request_with_handling (client ctx) tap_stream_id req in
    (response,
     mkCtx (config ctx) (schema_dt_paths ctx) c (state ctx)
           (trace ctx ++ [ERequest tap_stream_id req response])).

(** The list of records that a value holds; the transformer is handed
    nothing else. *)
Fixpoint as_records (items : list value) : Outcome (list Record) :=
  match items with
  | [] => Return []
  | VDict d :: rest => obind (as_records rest) (fun ds => Return (d :: ds))
  | _ :: _ => Raised TypeError
  end.
Definition records_of (data : value) : Outcome (list Record) :=
  match data with
  | VList items => as_records items
  | _ => Raised TypeError
  end.

(** The loop over [events] that replaces both payloads by their JSON
    text, one event after the other. *)
Fixpoint dump_payloads (events : list Record) : Outcome (list Record) :=
  match events with
  | [] => Return []
  | event :: rest =>
      obind (getitem event "data") (fun data =>
      let event := <["data" := VStr (json_dumps data)]> event in
      obind (getitem event "previous_data") (fun previous =>
      let event := <["previous_data" := VStr (json_dumps previous)]> event in
      obind (dump_payloads rest) (fun dumped =>
      Return (event :: dumped))))
  end.

Definition event_log_params (formatted_start : string) (cursor_next : value)
    : gmap string value :=
  let params : gmap string value :=
    {["date_updated__gte" := VStr formatted_start]} in
  if truthy cursor_next then <["_cursor" := cursor_next]> params else params.

(** The [while True] loop, for at most [fuel] requests. *)
Fixpoint event_log_loop (fuel : nat) (formatted_start max_bookmark : string)
    (cursor_next : value) : M string :=
  match fuel with
  | O => unfinished
  | S fuel =>
      let params := event_log_params formatted_start cursor_next in
      let req := create_request IDS.EVENT_LOG params in
      response <- request IDS.EVENT_LOG req ;;
      data <- lift (getitem response "data") ;;
      if negb (truthy data) then ret max_bookmark else
      raw <- lift (records_of data) ;;
      formatted <- format_dts IDS.EVENT_LOG raw ;;
      events <- lift (dump_payloads formatted) ;;
      write_records IDS.EVENT_LOG events ;;
      max_bookmark <- lift (new_max_bookmark max_bookmark events "date_updated") ;;
      cursor_next <- lift (getitem response "cursor_next") ;;
      if negb (truthy cursor_next) then ret max_bookmark else
      event_log_loop fuel formatted_start max_bookmark cursor_next
  end.

(** [utcnow] is what the clock reads once the loop is over. *)
Definition sync_event_log (fuel : nat) (utcnow : datetime.t) : M unit :=
  start <- update_start_date_bookmark (bookmark IDS.EVENT_LOG) ;;
  dt <- parse start ;;
  let formatted_start := datetime.strftime dt "%Y-%m-%dT%H:%M:%S" in
  max_bookmark <- event_log_loop fuel formatted_start start VNone ;;
  let five_minutes_ago := singer_strftime (datetime.sub_seconds utcnow (5 * 60)) in
  let max_bookmark := str_min five_minutes_ago max_bookmark in
  set_bookmark (bookmark IDS.EVENT_LOG) max_bookmark.

(** The strategy of each stream, as the table [streams] assigns them. *)
Definition sync_fn (tap_stream_id : IDS.t) (fuel : nat) (utcnow : datetime.t)
    : M unit :=
  match tap_stream_id with
  | IDS.LEADS => sync_leads
  | IDS.ACTIVITIES => sync_activities
  | IDS.EVENT_LOG => sync_event_log fuel utcnow
  | _ => basic_paginator tap_stream_id
  end.

End Sync.

(** ** What the loops compute, stated on lists *)

(** The string a record holds under [key], if it holds one. *)
Definition field (key : string) (r : Record) : option string :=
  match r !! key with
  | Some (VStr s) => Some s
  | _ => None
  end.

(** The records whose [key] is at or after [start]. *)
Definition kept (key start : string) (rs : list Record) : list Record :=
  List.filter
    (fun r => match field key r with Some s => str_ge s start | None => false end)
    rs.

(** The greatest of [init] and the values under [key] of [rs]. *)
Definition max_of (key init : string) (rs : list Record) : string :=
  fold_left
    (fun m r => match field key r with
                | Some s => if str_gt s m then s else m
                | None => m
                end)
    rs init.

(** [m] is a value of [rs] under [key] and no value of [rs] is above it. *)
Definition is_max_among (key m : string) (rs : list Record) : Prop :=
  (exists r, In r rs /\ field key r = Some m) /\
  (forall r s, In r rs -> field key r = Some s -> str_ge m s = true).

(** The record is there, or is there with a string: no comparison of it
    with a string is ill-typed. *)
Definition str_or_missing (key : string) (r : Record) : Prop :=
  r !! key = None \/ exists s, r !! key = Some (VStr s).

(** The records written for a stream, and the states flushed, in a trace. *)
Definition emitted (tap_stream_id : IDS.t) (events : list Event) : list Record :=
  omap (fun e => match e with
                 | ERecord t r => if decide (t = tap_stream_id) then Some r else None
                 | _ => None
                 end) events.

Definition flushes (events : list Event) : list State :=
  omap (fun e => match e with EState st => Some st | _ => None end) events.

Definition requests_of (events : list Event) : list (Request * Outcome Record) :=
  omap (fun e => match e with
                 | ERequest _ req resp => Some (req, resp)
                 | _ => None
                 end) events.

(** ** Request parameters *)

(** The text of an instant to the minute and to the second, as ISO-8601
    writes them. *)
Definition minute_text (dt : datetime.t) : string :=
  (datetime.pad 4 (datetime.year dt) ++ "-" ++ datetime.pad 2 (datetime.month dt)
   ++ "-" ++ datetime.pad 2 (datetime.day dt) ++ "T"
   ++ datetime.pad 2 (datetime.hour dt) ++ ":"
   ++ datetime.pad 2 (datetime.minute dt))%string.

Definition second_text (dt : datetime.t) : string :=
  (minute_text dt ++ ":" ++ datetime.pad 2 (datetime.second dt))%string.

(** The requests of the event log follow one another by the cursor: the
    first carries the filter alone, each later one the filter and the
    [cursor_next] of the response before it. *)
Fixpoint cursor_chained (formatted_start : string) (prior : option value)
    (exchanges : list (Request * Outcome Record)) : Prop :=
  match exchanges with
  | [] => True
  | (req, response) :: later =>
      req_path req = "/event/" /\
      req_params req =
        match prior with
        | None => {["date_updated__gte" := VStr formatted_start]}
        | Some cursor =>
            <["_cursor" := cursor]> {["date_updated__gte" := VStr formatted_start]}
        end /\
      match later with
      | [] => True
      | _ :: _ =>
          exists r cursor,
            response = Return r /\ r !! "cursor_next" = Some cursor /\
            cursor_chained formatted_start (Some cursor) later
      end
  end.

(** ** What the strategies do, stated on contexts *)

Section Specification.
Context `{Collaborators}.
Local Open Scope list_scope.

Definition has_field (key : string) (r : Record) : Prop :=
  exists s, r !! key = Some (VStr s).

(** The records of a page once transformed, as [paginated_sync] sees
    them. *)
Definition transformed (tap_stream_id : IDS.t) (ctx : Ctx) (page : Page)
    : list Record :=
  FORMATTERS_get tap_stream_id
    (transform_dts (records page) (schema_dt_paths ctx tap_stream_id)).

(** What one page does to the context when every record holds its
    bookmark field. *)
Definition after_page (tap_stream_id : IDS.t) (start : string) (page : Page)
    (ctx : Ctx) : Ctx :=
  let to_write :=
    kept (BOOK_KEYS tap_stream_id) start (transformed tap_stream_id ctx page) in
  let st := mkState (bookmarks (state ctx))
                    (<[(tap_stream_id, "skip") := next_skip page]>
                       (offsets (state ctx))) in
  mkCtx (config ctx) (schema_dt_paths ctx) (client ctx) st
        (trace ctx ++ [EPage tap_stream_id page]
           ++ map (ERecord tap_stream_id) to_write
           ++ [ECounter tap_stream_id (length to_write); EState st]).

(** The context as [paginated_sync] enters its loop, and as it leaves once
    the loop is over with maximum [m]. *)
Definition entering (tap_stream_id : IDS.t) (req : Request) (ctx : Ctx) : Ctx :=
  mkCtx (config ctx) (schema_dt_paths ctx) (client ctx) (state ctx)
        (trace ctx ++
           [EPaginate tap_stream_id req
              (default 0 (offsets (state ctx) !! (tap_stream_id, "skip")))]).

Definition committed (tap_stream_id : IDS.t) (m : string) (ctx : Ctx) : Ctx :=
  let st :=
    mkState (<[bookmark tap_stream_id := m]> (bookmarks (state ctx)))
            (filter (fun kv => kv.1.1 ≠ tap_stream_id) (offsets (state ctx))) in
  mkCtx (config ctx) (schema_dt_paths ctx) (client ctx) st
        (trace ctx ++ [EState st]).

(** The watermark a sync of the stream starts from: its bookmark, or the
    configured start date when it has none. *)
Definition watermark (ctx : Ctx) (path : IDS.t * string) : string :=
  match bookmarks (state ctx) !! path with
  | Some v => if String.eqb v EmptyString then start_date (config ctx) else v
  | None => start_date (config ctx)
  end.

(** The context once [update_start_date_bookmark] has run. *)
Definition seeded (path : IDS.t * string) (ctx : Ctx) : Ctx :=
  let seed :=
    mkCtx (config ctx) (schema_dt_paths ctx) (client ctx)
          (mkState (<[path := start_date (config ctx)]> (bookmarks (state ctx)))
                   (offsets (state ctx)))
          (trace ctx) in
  match bookmarks (state ctx) !! path with
  | Some v => if String.eqb v EmptyString then seed else ctx
  | None => seed
  end.

(** The query of the leads request for a start that reads as [dt]. *)
Definition leads_query (dt : datetime.t) : string :=
  ("date_updated>=" ++ dquote ++ datetime.strftime dt "%Y-%m-%dT%H:%M"
     ++ dquote ++ " sort:date_updated")%string.

(** The look-back-adjusted start of the activities stream, in the text the
    request carries. *)
Definition activities_start (dt : datetime.t) (ctx : Ctx) : string :=
  datetime.strftime
    (datetime.sub_seconds dt (default 0 (activities_window_seconds (config ctx))))
    "%Y-%m-%dT%H:%M:%S".

(** The bookmark that [sync_event_log] sets once its loop returned [m]. *)
Definition clamped (utcnow : datetime.t) (m : string) : string :=
  str_min (singer_strftime (datetime.sub_seconds utcnow (5 * 60))) m.

(** The generator raises somewhere down the stream. *)
Fixpoint fails (pages : PageStream) : bool :=
  match pages with
  | Exhausted => false
  | Yield _ rest => fails rest
  | Fails _ => true
  end.

(** Some page of the stream holds, once transformed, a record without the
    bookmark field, and no record up to the end of that page holds
    something else than a string there. *)
Fixpoint meets_missing_field (tap_stream_id : IDS.t) (paths : DtPaths)
    (pages : PageStream) : Prop :=
  match pages with
  | Yield page rest =>
      let rs := FORMATTERS_get tap_stream_id (transform_dts (records page) paths) in
      Forall (str_or_missing (BOOK_KEYS tap_stream_id)) rs /\
      (Exists (fun r => r !! BOOK_KEYS tap_stream_id = None) rs \/
       meets_missing_field tap_stream_id paths rest)
  | _ => False
  end.

(** The start watermark that a paginated strategy hands to
    [paginated_sync]: the watermark of the stream, and for the activities
    the look-back-adjusted one in second precision. *)
Definition paginated_start (tap_stream_id : IDS.t) (ctx : Ctx) : option string :=
  match tap_stream_id with
  | IDS.ACTIVITIES =>
      dt ← pendulum_parse (watermark ctx (bookmark IDS.ACTIVITIES));
      Some (activities_start dt ctx)
  | _ => Some (watermark ctx (bookmark tap_stream_id))
  end.

End Specification.

(** ** The rest of [streams.py] *)

Section MoreStreams.
Context `{Collaborators}.
Local Open Scope sync_scope.
Local Open Scope list_scope.

(** The body of [for page in paginate(...)] of [fetch_all]:
    [records += page.records]. *)
Fixpoint gather (tap_stream_id : IDS.t) (pages : PageStream)
    (gathered : list Record) : M (list Record) :=
  match pages with
  | Exhausted => ret gathered
  | Fails e => raise e
  | Yield page rest =>
      emit [EPage tap_stream_id page] ;;
      gather tap_stream_id rest (gathered ++ records page)
  end.

(** [fetch_all(tap_stream_id, ctx)]. [paginate] is called without [skip]:
    it takes its default, which the signature of [paginate] in the
    specification gives as 0. *)
Definition fetch_all (tap_stream_id : IDS.t) : M (list Record) :=
  let request := create_request tap_stream_id ∅ in
  pages <- call_paginate tap_stream_id request 0 ;;
  gather tap_stream_id pages [].

(** [mk_basic_paginator(tap_stream_id)]: a stream is its id and its
    strategy. *)
Definition mk_basic_paginator (tap_stream_id : IDS.t)
    : IDS.t * (nat -> datetime.t -> M unit) :=
  (tap_stream_id, fun _ _ => basic_paginator tap_stream_id).

(** The table [streams], in its order, and [stream_ids]. *)
Definition streams : list (IDS.t * (nat -> datetime.t -> M unit)) :=
  [ mk_basic_paginator IDS.CUSTOM_FIELDS;
    (IDS.LEADS, fun _ _ => sync_leads);
    (IDS.ACTIVITIES, fun _ _ => sync_activities);
    mk_basic_paginator IDS.TASKS;
    mk_basic_paginator IDS.USERS;
    (IDS.EVENT_LOG, sync_event_log) ].

Definition stream_ids : list IDS.t := map fst streams.

(** Every record of every page of the stream holds, once transformed, a
    string under the bookmark field, and the stream ends without raising. *)
Fixpoint well_keyed (tap_stream_id : IDS.t) (paths : DtPaths)
    (pages : PageStream) : Prop :=
  match pages with
  | Exhausted => True
  | Fails _ => False
  | Yield page rest =>
      Forall (has_field (BOOK_KEYS tap_stream_id))
             (FORMATTERS_get tap_stream_id (transform_dts (records page) paths)) /\
      well_keyed tap_stream_id paths rest
  end.

(** What the loop over the payloads makes of one event. *)
Definition dump_event (event : Record) : Record :=
  <["previous_data" :=
      VStr (json_dumps (default VNone (event !! "previous_data")))]>
    (<["data" := VStr (json_dumps (default VNone (event !! "data")))]> event).

End MoreStreams.

(** The pages a stream yields before it ends, and the exception it ends
    with, if any. *)
Fixpoint pages_of (pages : PageStream) : list Page :=
  match pages with
  | Yield page rest => page :: pages_of rest
  | _ => []
  end.

Fixpoint error_of (pages : PageStream) : option Exn :=
  match pages with
  | Exhausted => None
  | Yield _ rest => error_of rest
  | Fails e => Some e
  end.

(** The stream that yields the pages of a list and goes on as [rest]. *)
Definition yield_all (pages : list Page) (rest : PageStream) : PageStream :=
  fold_right Yield rest pages.

(** The total of the record counter of a stream in a trace. *)
Definition counted (tap_stream_id : IDS.t) (events : list Event) : nat :=
  sum_list_with
    (fun e => match e with
              | ECounter t n => if decide (t = tap_stream_id) then n else O
              | _ => O
              end) events.

(** The records at or after [start] under the bookmark field of the
    stream. *)
Definition from_start (tap_stream_id : IDS.t) (start : string) (r : Record) : Prop :=
  exists s, r !! BOOK_KEYS tap_stream_id = Some (VStr s) /\ str_ge s start = true.

(** What a run added to the trace: the records of the stream among it are at
    or after the start, it holds no record of another stream, and for every
    stream its counter adds up to the number of its records. *)
Definition sound_events (tap_stream_id : IDS.t) (in_range : Record -> Prop)
    (events : list Event) : Prop :=
  (forall r, In r (emitted tap_stream_id events) -> in_range r) /\
  (forall t, t <> tap_stream_id -> emitted t events = []) /\
  (forall t, counted t events = length (emitted t events)).

Section WrittenRecords.
Context `{Collaborators}.

(** What a record written by a strategy satisfies: for the paginated
    strategies it is at or after the start handed to [paginated_sync]. *)
Definition in_range (tap_stream_id : IDS.t) (ctx : Ctx) (r : Record) : Prop :=
  forall start,
    paginated_start tap_stream_id ctx = Some start ->
    tap_stream_id <> IDS.EVENT_LOG ->
    from_start tap_stream_id start r.

End WrittenRecords.

(** ** A scripted transport

    Collaborators for running the strategies on concrete data: the client
    hands out a fixed stream of pages and a fixed list of responses, the
    transformer finds every date already normalised. *)
Module Scripted.

Record client := mk {
  pages : PageStream;
  responses : list (Outcome Record)
}.

Definition answer (c : client) (_ : IDS.t) (_ : Request) : Outcome Record * client :=
  match responses c with
  | [] => (Raised (TransportError "connection refused"), c)
  | response :: rest => (response, mk (pages c) rest)
  end.

(** [json.dumps] on the payloads of the runs below: atoms and empty
    containers. *)
Definition dumps (v : value) : string :=
  match v with
  | VNone => "null"
  | VBool true => "true"
  | VBool false => "false"
  | VInt z => pretty z
  | VStr s => dquote ++ s ++ dquote
  | VList [] => "[]"
  | VList _ => "[...]"
  | VDict d => if bool_decide (d = ∅) then "{}" else "{...}"
  end%string.

Definition collaborators : Collaborators := {|
  Client := client;
  DtPaths := unit;
  paginate c _ _ _ := pages c;
  request_with_handling := answer;
  transform_dts rs _ := rs;
  format_leads rs := rs;
  json_dumps := dumps;
  pendulum_parse := datetime.parse_iso
|}.

#[local] Existing Instance collaborators.

(** A context with the given bookmarks and transport, nothing flushed
    yet. *)
Definition context (start : string) (window : option Z)
    (marks : gmap (IDS.t * string) string) (c : client) : Ctx :=
  mkCtx (mkConfig start window) (fun _ => tt) c (mkState marks ∅) [].

End Scripted.

(** ** Concrete runs

    The data of the scenarios: a page of two tasks, one before and one
    after the bookmark; an idle activities stream with a look-back window of
    a minute; an event log with one event four minutes old. *)
Module Runs.
#[local] Existing Instance Scripted.collaborators.

Definition noon : datetime.t := datetime.mk 2024 1 1 12 0 0 0.

Definition task_new : Record :=
  {["id" := VStr "task_1";
    "date_updated" := VStr "2020-01-02T00:00:00.000000Z"]}.
Definition task_old : Record :=
  {["id" := VStr "task_2";
    "date_updated" := VStr "2019-12-31T00:00:00.000000Z"]}.
Definition task_bare : Record := {["id" := VStr "task_3"]}.

Definition tasks_page : Page := mkPage [task_new; task_old] 2.
Definition bare_page : Page := mkPage [task_new; task_bare] 2.

Definition tasks_start : string := "2020-01-01T00:00:00.000000Z".
Definition tasks_mark : gmap (IDS.t * string) string :=
  {[bookmark IDS.TASKS := tasks_start]}.

(** The tasks stream: one page, then the end. *)
Definition tasks : Ctx :=
  Scripted.context "2019-01-01T00:00:00Z" None tasks_mark
    (Scripted.mk (Yield tasks_page Exhausted) []).

(** The tasks stream: one page, then the transport gives up. *)
Definition tasks_crash : Ctx :=
  Scripted.context "2019-01-01T00:00:00Z" None tasks_mark
    (Scripted.mk (Yield tasks_page (Fails (TransportError "timeout"))) []).
Definition tasks_crash_end : Ctx :=
  (sync_fn IDS.TASKS 0 noon tasks_crash).2.

(** The tasks stream: a page with a record without [date_updated]. *)
Definition tasks_bare : Ctx :=
  Scripted.context "2019-01-01T00:00:00Z" None tasks_mark
    (Scripted.mk (Yield bare_page Exhausted) []).

(** The activities stream with nothing new, a window of sixty seconds. *)
Definition activities_idle : Ctx :=
  Scripted.context "2019-01-01T00:00:00Z" (Some 60)
    {[bookmark IDS.ACTIVITIES := "2020-01-01T00:00:10.000000Z"]}
    (Scripted.mk Exhausted []).
Definition activities_idle_once : Ctx := (sync_activities activities_idle).2.
Definition activities_idle_twice : Ctx := (sync_activities activities_idle_once).2.

(** The event log at noon: one event, updated four minutes before. *)
Definition event : Record :=
  {["id" := VStr "ev_1";
    "date_updated" := VStr "2024-01-01T11:56:00.000000Z";
    "data" := VDict ∅;
    "previous_data" := VNone]}.
Definition event_written : Record :=
  <["previous_data" := VStr "null"]> (<["data" := VStr "{}"]> event).
Definition events_response : Record :=
  {["data" := VList [VDict event]; "cursor_next" := VNone]}.
Definition events_mark : gmap (IDS.t * string) string :=
  {[bookmark IDS.EVENT_LOG := "2024-01-01T00:00:00.000000Z"]}.

Definition events : Ctx :=
  Scripted.context "2019-01-01T00:00:00Z" None events_mark
    (Scripted.mk Exhausted [Return events_response]).
Definition events_end : Ctx := (sync_event_log 5 noon events).2.
Definition events_request : Request :=
  mkRequest "/event/" {["date_updated__gte" := VStr "2024-01-01T00:00:00"]}.

(** The event log answering without a [data] field, and with an empty
    one. *)
Definition dataless_response : Record := {["has_more" := VBool false]}.
Definition events_dataless : Ctx :=
  Scripted.context "2019-01-01T00:00:00Z" None events_mark
    (Scripted.mk Exhausted [Return dataless_response]).
Definition empty_response : Record :=
  {["data" := VList []; "cursor_next" := VNone]}.
Definition events_empty : Ctx :=
  Scripted.context "2019-01-01T00:00:00Z" None events_mark
    (Scripted.mk Exhausted [Return empty_response]).

End Runs.

(** More of the concrete runs: where the completed runs end. *)
Module MoreRuns.
#[local] Existing Instance Scripted.collaborators.

Definition tasks_end : Ctx := (sync_fn IDS.TASKS 0 Runs.noon Runs.tasks).2.
Definition task_new_date : string := "2020-01-02T00:00:00.000000Z".
Definition events_start : string := "2024-01-01T00:00:00.000000Z".

End MoreRuns.

(** * Facts *)

(** ** Tactics *)

(** Unfolds the monad and the methods of the context in the goal. *)
Ltac run_sync :=
  cbv beta iota zeta delta
    [bind ret raise unfinished lift reads modify emit
     get_offset set_offset clear_offsets get_bookmark set_bookmark
     write_state write_records metrics format_dts call_paginate
     with_state];
  cbn [fst snd config schema_dt_paths client state trace bookmarks offsets].

(** Splits the goal along the outcomes and tests of a loop body. *)
Ltac split_outcomes :=
  repeat match goal with
  | |- context [let '(_, _) := ?p in _] => destruct p eqn:?
  | |- context [if negb (truthy ?v) then _ else _] =>
      destruct (truthy v) eqn:?; cbn [negb]
  | |- context [match ?x with Return _ => _ | Raised _ => _ | Unfinished => _ end] =>
      destruct x eqn:?
  end.

(** ** The order of strings *)

Section StringOrder.

Lemma str_lt_iff a b :
  str_lt a b = true <-> OrderedTypeEx.String_as_OT.lt a b.
Proof.
  unfold str_lt, String.ltb.
  rewrite <- OrderedTypeEx.String_as_OT.cmp_lt.
  unfold OrderedTypeEx.String_as_OT.cmp.
  destruct (String.compare a b); split; congruence.
Qed.

Lemma str_lt_irrefl a : str_lt a a = false.
Proof.
  destruct (str_lt a a) eqn:E; [|done].
  apply str_lt_iff in E.
  by apply OrderedTypeEx.String_as_OT.lt_not_eq in E.
Qed.

Lemma str_lt_trans a b c :
  str_lt a b = true -> str_lt b c = true -> str_lt a c = true.
Proof.
  rewrite !str_lt_iff. apply OrderedTypeEx.String_as_OT.lt_trans.
Qed.

Lemma str_lt_asym a b : str_lt a b = true -> str_lt b a = false.
Proof.
  intros H. destruct (str_lt b a) eqn:E; [|done].
  pose proof (str_lt_trans _ _ _ H E) as F.
  by rewrite str_lt_irrefl in F.
Qed.

(** Two strings neither of which is below the other are equal. *)
Lemma str_lt_connex a b : str_lt a b = false -> str_lt b a = false -> a = b.
Proof.
  unfold str_lt, String.ltb. intros H1 H2.
  rewrite String.compare_antisym in H2.
  destruct (String.compare a b) eqn:E; simpl in *; try discriminate.
  by apply String.compare_eq_iff.
Qed.

Lemma str_ge_refl a : str_ge a a = true.
Proof. unfold str_ge. fold (str_lt a a). by rewrite str_lt_irrefl. Qed.

Lemma str_ge_trans a b c :
  str_ge a b = true -> str_ge b c = true -> str_ge a c = true.
Proof.
  unfold str_ge. fold (str_lt a b) (str_lt b c) (str_lt a c).
  rewrite !negb_true_iff. intros Hab Hbc.
  destruct (str_lt a c) eqn:Hac; [|done].
  destruct (str_lt c b) eqn:Hcb.
  - by rewrite (str_lt_trans _ _ _ Hac Hcb) in Hab.
  - rewrite (str_lt_connex _ _ Hbc Hcb) in Hab. congruence.
Qed.

Lemma str_gt_ge a b : str_gt a b = true -> str_ge a b = true.
Proof.
  unfold str_gt, str_ge. fold (str_lt b a) (str_lt a b).
  intros H. by rewrite (str_lt_asym _ _ H).
Qed.

Lemma str_le_ge a b : str_le a b = str_ge b a.
Proof. done. Qed.

Lemma str_min_le_l a b : str_le (str_min a b) a = true.
Proof.
  unfold str_min. destruct (str_lt b a) eqn:E.
  - rewrite str_le_ge. apply str_gt_ge. exact E.
  - rewrite str_le_ge. apply str_ge_refl.
Qed.

Lemma str_min_le_r a b : str_le (str_min a b) b = true.
Proof.
  unfold str_min. destruct (str_lt b a) eqn:E.
  - rewrite str_le_ge. apply str_ge_refl.
  - unfold str_le. fold (str_lt b a). by rewrite E.
Qed.

End StringOrder.

(** ** Facts about the loops *)

Section ListFacts.
Local Open Scope list_scope.

Lemma field_Some key r s : field key r = Some s <-> r !! key = Some (VStr s).
Proof.
  unfold field. destruct (r !! key) as [[]|]; split; congruence.
Qed.

Lemma max_of_cons key init r rs :
  max_of key init (r :: rs) =
  max_of key (match field key r with
              | Some s => if str_gt s init then s else init
              | None => init
              end) rs.
Proof. done. Qed.

Lemma max_of_app key init rs1 rs2 :
  max_of key init (rs1 ++ rs2) = max_of key (max_of key init rs1) rs2.
Proof. apply fold_left_app. Qed.

Lemma max_of_ge_init key rs : forall init, str_ge (max_of key init rs) init = true.
Proof.
  induction rs as [|r rs IH]; intros init.
  - apply str_ge_refl.
  - rewrite max_of_cons. destruct (field key r) as [s|]; [|apply IH].
    destruct (str_gt s init) eqn:E; [|apply IH].
    eapply str_ge_trans; [apply IH|]. by apply str_gt_ge.
Qed.

Lemma max_of_upper key rs : forall init r s,
  In r rs -> field key r = Some s -> str_ge (max_of key init rs) s = true.
Proof.
  induction rs as [|r0 rs IH]; intros init r s Hin Hf; [done|].
  rewrite max_of_cons. destruct Hin as [->|Hin]; [|by eapply IH].
  rewrite Hf. eapply str_ge_trans; [apply max_of_ge_init|].
  destruct (str_gt s init) eqn:E; [apply str_ge_refl|].
  unfold str_gt in E. unfold str_ge. by rewrite E.
Qed.

Lemma max_of_in key rs : forall init,
  max_of key init rs = init \/
  exists r, In r rs /\ field key r = Some (max_of key init rs).
Proof.
  induction rs as [|r0 rs IH]; intros init; [by left|].
  rewrite max_of_cons.
  destruct (field key r0) as [s|] eqn:Hf.
  - destruct (str_gt s init) eqn:E.
    + destruct (IH s) as [->|(r & Hin & Hr)].
      * right. exists r0. split; [by left|done].
      * right. exists r. split; [by right|done].
    + destruct (IH init) as [->|(r & Hin & Hr)]; [by left|].
      right. exists r. split; [by right|done].
  - destruct (IH init) as [->|(r & Hin & Hr)]; [by left|].
    right. exists r. split; [by right|done].
Qed.

(** Records below the start never raise a maximum that is at or above it:
    the maximum over all records is the maximum over the kept ones. *)
Lemma max_of_kept key start rs : forall init,
  str_ge init start = true ->
  max_of key init (kept key start rs) = max_of key init rs.
Proof.
  induction rs as [|r rs IH]; intros init Hinit; [done|].
  unfold kept in *. cbn [List.filter]. rewrite (max_of_cons key init r rs).
  destruct (field key r) as [s|] eqn:Hf; [|by apply IH].
  destruct (str_ge s start) eqn:Hs.
  - rewrite max_of_cons, Hf. apply IH.
    by destruct (str_gt s init).
  - assert (str_gt s init = false) as ->; [|by apply IH].
    unfold str_gt. fold (str_lt init s).
    destruct (str_lt init s) eqn:E; [|done].
    unfold str_ge in Hs, Hinit. fold (str_lt s start) in Hs.
    fold (str_lt init start) in Hinit.
    apply negb_false_iff in Hs. apply negb_true_iff in Hinit.
    by rewrite (str_lt_trans _ _ _ E Hs) in Hinit.
Qed.

Lemma kept_spec key start rs r :
  In r (kept key start rs) <->
  In r rs /\ exists s, field key r = Some s /\ str_ge s start = true.
Proof.
  unfold kept. rewrite List.filter_In. split.
  - intros [Hin Hk]. split; [done|].
    destruct (field key r) as [s|]; [|done]. by exists s.
  - intros [Hin (s & -> & Hs)]. done.
Qed.

(** When every record is at or after the start, the maximum over the
    start and a non-empty list is the value of one of the records. *)
Lemma max_of_is_max key start rs :
  rs <> [] ->
  (forall r, In r rs ->
     exists s, field key r = Some s /\ str_ge s start = true) ->
  is_max_among key (max_of key start rs) rs.
Proof.
  intros Hne Hall. split; [|intros r s; apply max_of_upper].
  destruct (max_of_in key rs start) as [Heq|Hex]; [|done].
  destruct rs as [|r0 l]; [done|].
  destruct (Hall r0) as (s & Hf & Hs); [by left|].
  exists r0. split; [by left|]. rewrite Heq, Hf. f_equal.
  assert (str_ge start s = true) as Hs'.
  { rewrite <- Heq. eapply max_of_upper; [by left|done]. }
  unfold str_ge in Hs, Hs'. apply negb_true_iff in Hs, Hs'.
  by apply str_lt_connex.
Qed.

Lemma emitted_app t l1 l2 : emitted t (l1 ++ l2) = emitted t l1 ++ emitted t l2.
Proof. apply omap_app. Qed.

Lemma emitted_records t rs : emitted t (map (ERecord t) rs) = rs.
Proof.
  induction rs as [|r rs IH]; [done|].
  simpl. unfold emitted in *. simpl. rewrite decide_True by done.
  simpl. by rewrite IH.
Qed.

Lemma flushes_app l1 l2 : flushes (l1 ++ l2) = flushes l1 ++ flushes l2.
Proof. apply omap_app. Qed.

Lemma flushes_records t rs : flushes (map (ERecord t) rs) = [].
Proof. by induction rs. Qed.

Lemma requests_of_app l1 l2 :
  requests_of (l1 ++ l2) = requests_of l1 ++ requests_of l2.
Proof. apply omap_app. Qed.

Lemma requests_of_records t rs : requests_of (map (ERecord t) rs) = [].
Proof. by induction rs. Qed.

End ListFacts.

Section SyncFacts.
Context `{Collaborators}.
Local Open Scope list_scope.

Lemma records_from_ok key start rs :
  Forall (has_field key) rs ->
  records_from rs key start = Return (kept key start rs).
Proof.
  induction 1 as [|r rs [s Hs] _ IH]; [done|].
  cbn [records_from]. unfold getitem. rewrite Hs. cbn [obind value_ge].
  rewrite IH. cbn [obind]. unfold kept. cbn [List.filter].
  rewrite (proj2 (field_Some key r s) Hs). by destruct (str_ge s start).
Qed.

Lemma records_from_Return key start rs l :
  records_from rs key start = Return l ->
  Forall (has_field key) rs /\ l = kept key start rs.
Proof.
  revert l. induction rs as [|r rs IH]; intros l; cbn [records_from].
  - intros [= <-]. by split.
  - unfold getitem. destruct (r !! key) as [v|] eqn:Hv; cbn [obind]; [|done].
    destruct v as [| | |s| |]; cbn [obind value_ge]; try done.
    destruct (records_from rs key start) as [kept_rest| |] eqn:Hr;
      cbn [obind]; try done.
    destruct (IH _ eq_refl) as [Hall ->]. intros [= <-]. split.
    + constructor; [by exists s|done].
    + unfold kept. cbn [List.filter].
      rewrite (proj2 (field_Some key r s) Hv). by destruct (str_ge s start).
Qed.

Lemma new_max_bookmark_ok key rs : forall init,
  Forall (has_field key) rs ->
  new_max_bookmark init rs key = Return (max_of key init rs).
Proof.
  induction rs as [|r rs IH]; intros init Hall; [done|].
  inversion Hall as [|? ? [s Hs] Hrest]; subst.
  cbn [new_max_bookmark]. unfold getitem. rewrite Hs. cbn [obind value_gt].
  rewrite IH by done. rewrite max_of_cons.
  rewrite (proj2 (field_Some key r s) Hs). by destruct (str_gt s init).
Qed.

Lemma new_max_bookmark_Return key rs : forall init m,
  new_max_bookmark init rs key = Return m ->
  Forall (has_field key) rs /\ m = max_of key init rs.
Proof.
  induction rs as [|r rs IH]; intros init m; cbn [new_max_bookmark].
  - intros [= <-]. by split.
  - unfold getitem. destruct (r !! key) as [v|] eqn:Hv; cbn [obind]; [|done].
    destruct v as [| | |s| |]; cbn [obind value_gt]; try done.
    intros Hm. apply IH in Hm as [Hall ->]. split.
    + constructor; [by exists s|done].
    + rewrite max_of_cons. rewrite (proj2 (field_Some key r s) Hv).
      by destruct (str_gt s init).
Qed.

(** A record without the field makes the comprehension raise, unless an
    earlier record holds something else than a string there. *)
Lemma records_from_missing key start rs :
  Forall (str_or_missing key) rs ->
  Exists (fun r => r !! key = None) rs ->
  records_from rs key start = Raised (KeyError key).
Proof.
  intros Hall Hex. induction Hall as [|r rs Hr Hall IH].
  - inversion Hex.
  - cbn [records_from]. unfold getitem.
    destruct Hr as [Hr|[s Hr]]; rewrite Hr; cbn [obind value_ge]; [done|].
    inversion Hex as [? ? Hnone|? ? Hrest]; subst; [congruence|].
    by rewrite IH.
Qed.

Lemma new_max_bookmark_missing key rs : forall init,
  Forall (str_or_missing key) rs ->
  Exists (fun r => r !! key = None) rs ->
  new_max_bookmark init rs key = Raised (KeyError key).
Proof.
  intros init Hall. revert init. induction Hall as [|r rs Hr Hall IH]; intros init Hex.
  - inversion Hex.
  - cbn [new_max_bookmark]. unfold getitem.
    destruct Hr as [Hr|[s Hr]]; rewrite Hr; cbn [obind value_gt]; [done|].
    inversion Hex as [? ? Hnone|? ? Hrest]; subst; [congruence|].
    by apply IH.
Qed.

Lemma for_pages_step tap_stream_id start page rest max_bookmark ctx :
  Forall (has_field (BOOK_KEYS tap_stream_id)) (transformed tap_stream_id ctx page) ->
  for_pages tap_stream_id start (Yield page rest) max_bookmark ctx =
  for_pages tap_stream_id start rest
    (max_of (BOOK_KEYS tap_stream_id) max_bookmark
            (transformed tap_stream_id ctx page))
    (after_page tap_stream_id start page ctx).
Proof.
  intros Hall. unfold transformed in Hall.
  cbn [for_pages]. run_sync.
  rewrite (records_from_ok _ start _ Hall).
  rewrite (new_max_bookmark_ok _ _ max_bookmark Hall).
  unfold after_page, transformed. cbn.
  do 2 f_equal. by rewrite <- !app_assoc.
Qed.

Lemma last_state_app l1 l2 seen :
  last_state (l1 ++ l2) seen = last_state l2 (last_state l1 seen).
Proof.
  revert seen. induction l1 as [|e l1 IH]; intros seen; [done|].
  destruct e; cbn [app last_state]; apply IH.
Qed.

Lemma last_state_snoc l st seen : last_state (l ++ [EState st]) seen = Some st.
Proof. by rewrite last_state_app. Qed.

(** Whatever the outcome, the page loop leaves the configuration, the
    client and the bookmarks alone and only adds to the trace. *)
Lemma for_pages_frame tap_stream_id start pages :
  forall max_bookmark ctx o ctx',
    for_pages tap_stream_id start pages max_bookmark ctx = (o, ctx') ->
    config ctx' = config ctx /\
    schema_dt_paths ctx' = schema_dt_paths ctx /\
    client ctx' = client ctx /\
    bookmarks (state ctx') = bookmarks (state ctx) /\
    exists events, trace ctx' = trace ctx ++ events.
Proof.
  induction pages as [|page rest IH|e]; intros max_bookmark ctx o ctx'.
  - cbn [for_pages]. run_sync. intros [= <- <-].
    repeat split; try done. exists []. by rewrite app_nil_r.
  - cbn [for_pages]. run_sync.
    destruct (records_from _ _ _) as [to_write| |];
      [|intros [= <- <-]; cbn; repeat split; eauto..].
    destruct (new_max_bookmark _ _ _) as [newer| |];
      [|intros [= <- <-]; cbn; repeat split; eauto..].
    intros Hrun. apply IH in Hrun as (-> & -> & -> & -> & events & ->).
    cbn. repeat split; try done.
    eexists. rewrite <- !app_assoc. reflexivity.
  - cbn [for_pages]. run_sync. intros [= <- <-].
    repeat split; try done. exists []. by rewrite app_nil_r.
Qed.

(** A page loop that goes past a page found the bookmark field in every
    record of it. *)
Lemma for_pages_Return_inv tap_stream_id start page rest max_bookmark ctx m ctx' :
  for_pages tap_stream_id start (Yield page rest) max_bookmark ctx
    = (Return m, ctx') ->
  Forall (has_field (BOOK_KEYS tap_stream_id)) (transformed tap_stream_id ctx page).
Proof.
  cbn [for_pages]. run_sync. fold (transformed tap_stream_id ctx page).
  destruct (records_from _ _ _) as [to_write| |] eqn:Hrec; [|done..].
  intros _. by apply records_from_Return in Hrec as [Hall _].
Qed.

(** A page loop that completes wrote the records at or after the start and
    returns their maximum. *)
Lemma for_pages_Return tap_stream_id start pages :
  forall max_bookmark ctx m ctx',
    for_pages tap_stream_id start pages max_bookmark ctx = (Return m, ctx') ->
    str_ge max_bookmark start = true ->
    exists written,
      emitted tap_stream_id (trace ctx')
        = emitted tap_stream_id (trace ctx) ++ written /\
      m = max_of (BOOK_KEYS tap_stream_id) max_bookmark written /\
      (forall r, In r written ->
         exists s, field (BOOK_KEYS tap_stream_id) r = Some s /\
                   str_ge s start = true).
Proof.
  induction pages as [|page rest IH|e]; intros max_bookmark ctx m ctx' Hrun Hge.
  - revert Hrun. cbn [for_pages]. run_sync. intros [= <- <-].
    exists []. rewrite app_nil_r. by repeat split.
  - pose proof (for_pages_Return_inv _ _ _ _ _ _ _ _ Hrun) as Hall.
    rewrite (for_pages_step _ _ _ _ _ _ Hall) in Hrun.
    apply IH in Hrun as (written & Hem & -> & Hall').
    2:{ eapply str_ge_trans; [apply max_of_ge_init|done]. }
    set (key := BOOK_KEYS tap_stream_id) in *.
    set (rs := transformed tap_stream_id ctx page) in *.
    exists (kept key start rs ++ written). repeat split.
    + rewrite Hem. unfold after_page. cbn [trace]. fold rs key.
      rewrite !emitted_app, emitted_records. cbn. by rewrite !app_nil_r, app_assoc.
    + rewrite max_of_app. by rewrite max_of_kept.
    + intros r [Hin|Hin]%in_app_or; [|by apply Hall'].
      by apply kept_spec in Hin as [_ Hin].
  - revert Hrun. cbn [for_pages]. run_sync. done.
Qed.

Lemma paginated_sync_unfold tap_stream_id req start ctx :
  paginated_sync tap_stream_id req start ctx =
  match for_pages tap_stream_id start
          (paginate (client ctx) tap_stream_id req
             (default 0 (offsets (state ctx) !! (tap_stream_id, "skip"))))
          start (entering tap_stream_id req ctx) with
  | (Return m, ctx') => (Return tt, committed tap_stream_id m ctx')
  | (Raised e, ctx') => (Raised e, ctx')
  | (Unfinished, ctx') => (Unfinished, ctx')
  end.
Proof.
  unfold paginated_sync. run_sync. unfold entering.
  destruct (for_pages _ _ _ _ _) as [[m| |] ctx']; done.
Qed.

Lemma offsets_cleared (tap_stream_id : IDS.t) (m : gmap (IDS.t * string) Z)
    (key : string) :
  filter (fun kv => kv.1.1 ≠ tap_stream_id) m !! (tap_stream_id, key) = None.
Proof.
  apply map_lookup_filter_None. right. intros v _. cbn. by intros [].
Qed.

(** A completed [paginated_sync]: what it wrote, set and flushed. *)
Lemma paginated_sync_Return tap_stream_id req start ctx ctx' :
  paginated_sync tap_stream_id req start ctx = (Return tt, ctx') ->
  exists written,
    emitted tap_stream_id (trace ctx')
      = emitted tap_stream_id (trace ctx) ++ written /\
    (forall r, In r written ->
       exists s, field (BOOK_KEYS tap_stream_id) r = Some s /\
                 str_ge s start = true) /\
    bookmarks (state ctx')
      = <[bookmark tap_stream_id :=
            max_of (BOOK_KEYS tap_stream_id) start written]>
          (bookmarks (state ctx)) /\
    (forall key, offsets (state ctx') !! (tap_stream_id, key) = None) /\
    persisted ctx' = Some (state ctx').
Proof.
  rewrite paginated_sync_unfold.
  destruct (for_pages _ _ _ _ _) as [[m| |] ctx1] eqn:Hloop; [|done..].
  intros [= <-].
  destruct (for_pages_frame _ _ _ _ _ _ _ Hloop) as (_ & _ & _ & Hbm & _).
  apply for_pages_Return in Hloop as (written & Hem & -> & Hall);
    [|apply str_ge_refl].
  exists written. repeat split.
  - unfold committed. cbn [trace]. rewrite emitted_app, Hem.
    unfold entering. cbn [trace]. rewrite emitted_app. cbn.
    by rewrite !app_nil_r.
  - done.
  - unfold committed. cbn [state bookmarks]. by rewrite Hbm.
  - intros key. unfold committed. cbn [state offsets]. apply offsets_cleared.
  - unfold persisted, committed. cbn [trace state]. apply last_state_snoc.
Qed.

(** A [paginated_sync] that does not complete leaves every bookmark as it
    was. *)
Lemma paginated_sync_not_Return tap_stream_id req start ctx o ctx' :
  paginated_sync tap_stream_id req start ctx = (o, ctx') ->
  is_return o = false ->
  config ctx' = config ctx /\ bookmarks (state ctx') = bookmarks (state ctx).
Proof.
  rewrite paginated_sync_unfold.
  destruct (for_pages _ _ _ _ _) as [[m| |] ctx1] eqn:Hloop;
    intros [= <- <-]; [done| |];
    intros _; by apply for_pages_frame in Hloop as (? & _ & _ & ? & _).
Qed.

(** *** The start watermark *)

Lemma update_start_date_bookmark_unfold path ctx :
  update_start_date_bookmark path ctx = (Return (watermark ctx path), seeded path ctx).
Proof.
  unfold update_start_date_bookmark, watermark, seeded. run_sync.
  destruct (bookmarks (state ctx) !! path) as [v|]; [|done].
  by destruct (String.eqb v EmptyString).
Qed.

Lemma seeded_frame path ctx :
  config (seeded path ctx) = config ctx /\
  schema_dt_paths (seeded path ctx) = schema_dt_paths ctx /\
  client (seeded path ctx) = client ctx /\
  offsets (state (seeded path ctx)) = offsets (state ctx) /\
  trace (seeded path ctx) = trace ctx.
Proof.
  unfold seeded. destruct (bookmarks (state ctx) !! path) as [v|]; [|done].
  by destruct (String.eqb v EmptyString).
Qed.

Lemma seeded_lookup path ctx :
  bookmarks (state (seeded path ctx)) !! path = Some (watermark ctx path).
Proof.
  unfold seeded, watermark.
  destruct (bookmarks (state ctx) !! path) as [v|] eqn:Hv.
  - destruct (String.eqb v EmptyString); [|done].
    cbn. apply lookup_insert_eq.
  - cbn. apply lookup_insert_eq.
Qed.

(** Seeding moves no watermark: a stream without a bookmark already
    started from the configured date. *)
Lemma seeded_watermark path ctx other :
  watermark (seeded path ctx) other = watermark ctx other.
Proof.
  unfold watermark at 1. destruct (seeded_frame path ctx) as (-> & _).
  destruct (decide (path = other)) as [<-|Hne].
  - rewrite seeded_lookup. unfold watermark.
    destruct (bookmarks (state ctx) !! path) as [v|].
    + destruct (String.eqb v EmptyString) eqn:Hv; [|by rewrite Hv].
      by destruct (String.eqb (start_date (config ctx)) EmptyString).
    + by destruct (String.eqb (start_date (config ctx)) EmptyString).
  - unfold seeded, watermark.
    destruct (bookmarks (state ctx) !! path) as [v|]; cbn.
    + destruct (String.eqb v EmptyString); cbn; [|done].
      by rewrite lookup_insert_ne.
    + by rewrite lookup_insert_ne.
Qed.

Lemma seeded_present path ctx v :
  bookmarks (state ctx) !! path = Some v -> v <> EmptyString ->
  seeded path ctx = ctx.
Proof.
  intros Hv Hne. unfold seeded. rewrite Hv.
  destruct (String.eqb_spec v EmptyString); done.
Qed.

(** *** The loop of the event log *)

Lemma event_log_loop_S fuel formatted_start max_bookmark cursor_next ctx :
  event_log_loop (S fuel) formatted_start max_bookmark cursor_next ctx =
  let req := create_request IDS.EVENT_LOG
               (event_log_params formatted_start cursor_next) in
  let '(response, c) := request_with_handling (client ctx) IDS.EVENT_LOG req in
  let ctx1 := mkCtx (config ctx) (schema_dt_paths ctx) c (state ctx)
                    (trace ctx ++ [ERequest IDS.EVENT_LOG req response]) in
  match response with
  | Return response =>
      match getitem response "data" with
      | Return data =>
          if negb (truthy data) then (Return max_bookmark, ctx1) else
          match records_of data with
          | Return raw =>
              match dump_payloads
                      (transform_dts raw (schema_dt_paths ctx IDS.EVENT_LOG)) with
              | Return events =>
                  let ctx2 :=
                    mkCtx (config ctx) (schema_dt_paths ctx) c (state ctx)
                          (trace ctx1 ++ map (ERecord IDS.EVENT_LOG) events
                             ++ [ECounter IDS.EVENT_LOG (length events)]) in
                  match new_max_bookmark max_bookmark events "date_updated" with
                  | Return newer =>
                      match getitem response "cursor_next" with
                      | Return next =>
                          if negb (truthy next) then (Return newer, ctx2)
                          else event_log_loop fuel formatted_start newer next ctx2
                      | Raised e => (Raised e, ctx2)
                      | Unfinished => (Unfinished, ctx2)
                      end
                  | Raised e => (Raised e, ctx2)
                  | Unfinished => (Unfinished, ctx2)
                  end
              | Raised e => (Raised e, ctx1)
              | Unfinished => (Unfinished, ctx1)
              end
          | Raised e => (Raised e, ctx1)
          | Unfinished => (Unfinished, ctx1)
          end
      | Raised e => (Raised e, ctx1)
      | Unfinished => (Unfinished, ctx1)
      end
  | Raised e => (Raised e, ctx1)
  | Unfinished => (Unfinished, ctx1)
  end.
Proof.
  cbn [event_log_loop]. run_sync. unfold request.
  destruct (request_with_handling _ _ _) as [[response| |] c]; cbn; try done.
  destruct (getitem response "data") as [data| |]; try done.
  destruct (negb (truthy data)); try done.
  destruct (records_of data) as [raw| |]; try done.
  destruct (dump_payloads _) as [events| |]; try done.
  destruct (new_max_bookmark _ _ _) as [newer| |];
    [destruct (getitem response "cursor_next") as [next| |]|..];
    cbn [config schema_dt_paths client state trace];
    rewrite <- ?app_assoc; [by destruct (negb (truthy next))|done..].
Qed.

(** Whatever the outcome, the loop leaves the configuration and the whole
    state alone, flushes nothing and only adds to the trace. *)
Lemma event_log_loop_frame fuel :
  forall formatted_start max_bookmark cursor_next ctx o ctx',
    event_log_loop fuel formatted_start max_bookmark cursor_next ctx = (o, ctx') ->
    config ctx' = config ctx /\
    schema_dt_paths ctx' = schema_dt_paths ctx /\
    state ctx' = state ctx /\
    flushes (trace ctx') = flushes (trace ctx) /\
    exists events, trace ctx' = trace ctx ++ events.
Proof.
  induction fuel as [|fuel IH]; intros formatted_start max_bookmark cursor_next ctx o ctx'.
  - cbn. run_sync. intros [= <- <-]. repeat split; try done.
    exists []. by rewrite app_nil_r.
  - rewrite event_log_loop_S. cbv zeta. split_outcomes.
    all: try (intros [= <- <-]; cbn [config schema_dt_paths state trace];
              rewrite ?flushes_app, ?flushes_records; cbn; rewrite ?app_nil_r;
              repeat split; try done; eexists; rewrite <- ?app_assoc; reflexivity).
    intros Hrun. apply IH in Hrun as (-> & -> & -> & -> & events & ->).
    cbn [config schema_dt_paths state trace].
    rewrite ?flushes_app, ?flushes_records; cbn; rewrite ?app_nil_r.
    repeat split; try done. eexists; rewrite <- ?app_assoc; reflexivity.
Qed.

(** A loop that completes wrote the events it returns the maximum of. *)
Lemma event_log_loop_Return fuel :
  forall formatted_start max_bookmark cursor_next ctx m ctx',
    event_log_loop fuel formatted_start max_bookmark cursor_next ctx
      = (Return m, ctx') ->
    exists written,
      emitted IDS.EVENT_LOG (trace ctx')
        = emitted IDS.EVENT_LOG (trace ctx) ++ written /\
      m = max_of "date_updated" max_bookmark written.
Proof.
  induction fuel as [|fuel IH]; intros formatted_start max_bookmark cursor_next ctx m ctx'.
  - cbn. run_sync. done.
  - rewrite event_log_loop_S. cbv zeta. split_outcomes; try done.
    + intros Hrun. apply IH in Hrun as (written & -> & ->).
      match goal with
      | Hmax : new_max_bookmark _ ?evs _ = Return _ |- _ =>
          apply new_max_bookmark_Return in Hmax as [_ ->];
          exists (evs ++ written)
      end.
      cbn [trace]. rewrite !emitted_app, emitted_records. cbn.
      rewrite !app_nil_r, max_of_app. by rewrite <- app_assoc.
    + intros [= <- <-].
      match goal with
      | Hmax : new_max_bookmark _ ?evs _ = Return _ |- _ =>
          apply new_max_bookmark_Return in Hmax as [_ ->];
          exists evs
      end.
      cbn [trace]. rewrite !emitted_app, emitted_records. cbn.
      by rewrite !app_nil_r.
    + intros [= <- <-]. exists []. cbn [trace].
      rewrite emitted_app. cbn. by rewrite !app_nil_r.
Qed.

End SyncFacts.

Section StrategyFacts.
Context `{Collaborators}.
Local Open Scope list_scope.

(** The flush at the end of a completed [paginated_sync] is the last thing
    it does. *)
Lemma paginated_sync_Return_trace tap_stream_id req start ctx ctx' :
  paginated_sync tap_stream_id req start ctx = (Return tt, ctx') ->
  exists events,
    trace ctx' =
    trace ctx
      ++ EPaginate tap_stream_id req
           (default 0 (offsets (state ctx) !! (tap_stream_id, "skip")))
      :: events ++ [EState (state ctx')].
Proof.
  rewrite paginated_sync_unfold.
  destruct (for_pages _ _ _ _ _) as [[m| |] ctx1] eqn:Hloop; [|done..].
  intros [= <-].
  apply for_pages_frame in Hloop as (_ & _ & _ & _ & events & Htrace).
  exists events. unfold committed. cbn [trace state]. rewrite Htrace.
  unfold entering. cbn [trace]. by rewrite <- !app_assoc.
Qed.

(** Whatever its outcome, [paginated_sync] starts by calling the
    paginator with the request it was given. *)
Lemma paginated_sync_trace tap_stream_id req start ctx :
  exists events,
    trace (paginated_sync tap_stream_id req start ctx).2 =
    trace ctx
      ++ EPaginate tap_stream_id req
           (default 0 (offsets (state ctx) !! (tap_stream_id, "skip")))
      :: events.
Proof.
  rewrite paginated_sync_unfold.
  destruct (for_pages _ _ _ _ _) as [o ctx1] eqn:Hloop.
  apply for_pages_frame in Hloop as (_ & _ & _ & _ & events & Htrace).
  unfold entering in Htrace. cbn [trace] in Htrace.
  destruct o; cbn [snd committed trace]; rewrite Htrace, <- ?app_assoc;
    eexists; cbn; reflexivity.
Qed.

Lemma basic_paginator_unfold tap_stream_id ctx :
  basic_paginator tap_stream_id ctx =
  paginated_sync tap_stream_id (create_request tap_stream_id ∅)
    (watermark ctx (bookmark tap_stream_id))
    (seeded (bookmark tap_stream_id) ctx).
Proof.
  unfold basic_paginator, bind at 1.
  by rewrite update_start_date_bookmark_unfold.
Qed.

Lemma sync_leads_unfold ctx :
  sync_leads ctx =
  let start := watermark ctx (bookmark IDS.LEADS) in
  match pendulum_parse start with
  | Some dt =>
      paginated_sync IDS.LEADS
        (create_request IDS.LEADS {["query" := VStr (leads_query dt)]})
        start (seeded (bookmark IDS.LEADS) ctx)
  | None => (Raised (ParserError start), seeded (bookmark IDS.LEADS) ctx)
  end.
Proof.
  unfold sync_leads, bind at 1.
  rewrite update_start_date_bookmark_unfold. cbv zeta.
  unfold bind at 1, parse.
  by destruct (pendulum_parse _).
Qed.

Lemma sync_activities_unfold ctx :
  sync_activities ctx =
  let start := watermark ctx (bookmark IDS.ACTIVITIES) in
  match pendulum_parse start with
  | Some dt =>
      paginated_sync IDS.ACTIVITIES
        (create_request IDS.ACTIVITIES
           {["date_created__gt" := VStr (activities_start dt ctx)]})
        (activities_start dt ctx) (seeded (bookmark IDS.ACTIVITIES) ctx)
  | None => (Raised (ParserError start), seeded (bookmark IDS.ACTIVITIES) ctx)
  end.
Proof.
  unfold sync_activities, bind at 1.
  rewrite update_start_date_bookmark_unfold. cbv zeta.
  unfold bind at 1, parse.
  destruct (pendulum_parse _) as [dt|]; [|done].
  unfold ret, bind at 1, reads. unfold activities_start.
  by destruct (seeded_frame (bookmark IDS.ACTIVITIES) ctx) as (-> & _).
Qed.

Lemma sync_event_log_unfold fuel utcnow ctx :
  sync_event_log fuel utcnow ctx =
  let path := bookmark IDS.EVENT_LOG in
  let start := watermark ctx path in
  match pendulum_parse start with
  | Some dt =>
      match event_log_loop fuel (datetime.strftime dt "%Y-%m-%dT%H:%M:%S")
              start VNone (seeded path ctx) with
      | (Return m, ctx') =>
          (Return tt,
           mkCtx (config ctx') (schema_dt_paths ctx') (client ctx')
                 (mkState (<[path := clamped utcnow m]> (bookmarks (state ctx')))
                          (offsets (state ctx')))
                 (trace ctx'))
      | (Raised e, ctx') => (Raised e, ctx')
      | (Unfinished, ctx') => (Unfinished, ctx')
      end
  | None => (Raised (ParserError start), seeded path ctx)
  end.
Proof.
  unfold sync_event_log, bind at 1.
  rewrite update_start_date_bookmark_unfold. cbv zeta.
  unfold bind at 1, parse.
  destruct (pendulum_parse _) as [dt|]; [|done].
  unfold ret, bind at 1.
  destruct (event_log_loop _ _ _ _ _) as [[m| |] ctx']; try done.
Qed.

End StrategyFacts.

Section ErrorFacts.
Context `{Collaborators}.
Local Open Scope list_scope.

Lemma records_from_finished key start rs :
  records_from rs key start <> Unfinished.
Proof.
  induction rs as [|r rs IH]; [done|].
  cbn [records_from]. unfold getitem.
  destruct (r !! key) as [[| | |s| |]|]; cbn [obind value_ge]; try done.
  by destruct (records_from rs key start).
Qed.

Lemma new_max_bookmark_finished key rs :
  forall init, new_max_bookmark init rs key <> Unfinished.
Proof.
  induction rs as [|r rs IH]; intros init; [done|].
  cbn [new_max_bookmark]. unfold getitem.
  destruct (r !! key) as [[| | |s| |]|]; cbn [obind value_gt]; done.
Qed.

(** Nothing in the page loop catches what the generator raises. *)
Lemma for_pages_fails tap_stream_id start pages :
  forall max_bookmark ctx,
    fails pages = true ->
    exists e ctx',
      for_pages tap_stream_id start pages max_bookmark ctx = (Raised e, ctx').
Proof.
  induction pages as [|page rest IH|e]; intros max_bookmark ctx; [done| |].
  - cbn [fails for_pages]. intros Hrest. run_sync.
    destruct (records_from _ _ _) as [to_write|e|] eqn:Hrec;
      [|by eauto|by apply records_from_finished in Hrec].
    destruct (new_max_bookmark _ _ _) as [newer|e|] eqn:Hmax;
      [|by eauto|by apply new_max_bookmark_finished in Hmax].
    by apply IH.
  - intros _. cbn [for_pages]. run_sync. eauto.
Qed.

Lemma watermark_ext (ctx1 ctx2 : Ctx) path :
  config ctx1 = config ctx2 ->
  bookmarks (state ctx1) = bookmarks (state ctx2) ->
  watermark ctx1 path = watermark ctx2 path.
Proof. unfold watermark. by intros -> ->. Qed.

(** A strategy that does not complete has set no bookmark since it read its
    start watermark. *)
Lemma sync_fn_not_Return tap_stream_id fuel utcnow ctx o ctx' :
  sync_fn tap_stream_id fuel utcnow ctx = (o, ctx') ->
  is_return o = false ->
  config ctx' = config ctx /\
  bookmarks (state ctx')
    = bookmarks (state (seeded (bookmark tap_stream_id) ctx)).
Proof.
  intros Hrun Ho.
  pose proof (seeded_frame (bookmark tap_stream_id) ctx) as (Hcfg & _).
  assert (forall req start,
            paginated_sync tap_stream_id req start
              (seeded (bookmark tap_stream_id) ctx) = (o, ctx') ->
            config ctx' = config ctx /\
            bookmarks (state ctx')
              = bookmarks (state (seeded (bookmark tap_stream_id) ctx)))
    as Hpag.
  { intros req start Hp.
    apply paginated_sync_not_Return in Hp as [-> ->]; done. }
  destruct tap_stream_id; cbn [sync_fn] in Hrun.
  - rewrite basic_paginator_unfold in Hrun. by eapply Hpag.
  - rewrite sync_leads_unfold in Hrun. cbv zeta in Hrun.
    destruct (pendulum_parse _); [by eapply Hpag|].
    by injection Hrun as <- <-.
  - rewrite sync_activities_unfold in Hrun. cbv zeta in Hrun.
    destruct (pendulum_parse _); [by eapply Hpag|].
    by injection Hrun as <- <-.
  - rewrite basic_paginator_unfold in Hrun. by eapply Hpag.
  - rewrite basic_paginator_unfold in Hrun. by eapply Hpag.
  - rewrite sync_event_log_unfold in Hrun. cbv zeta in Hrun.
    destruct (pendulum_parse _); [|by injection Hrun as <- <-].
    destruct (event_log_loop _ _ _ _ _) as [[m| |] ctx1] eqn:Hloop;
      injection Hrun as <- <-; [done| |];
      by apply event_log_loop_frame in Hloop as (-> & _ & -> & _).
Qed.

End ErrorFacts.

Section CompletionFacts.
Context `{Collaborators}.
Local Open Scope list_scope.

(** A completed [sync_event_log]: what it wrote and what it set. *)
Lemma sync_event_log_Return fuel utcnow ctx ctx' :
  sync_event_log fuel utcnow ctx = (Return tt, ctx') ->
  exists written,
    emitted IDS.EVENT_LOG (trace ctx')
      = emitted IDS.EVENT_LOG (trace ctx) ++ written /\
    bookmarks (state ctx')
      = <[bookmark IDS.EVENT_LOG :=
            clamped utcnow
              (max_of "date_updated" (watermark ctx (bookmark IDS.EVENT_LOG))
                      written)]>
          (bookmarks (state (seeded (bookmark IDS.EVENT_LOG) ctx))) /\
    offsets (state ctx') = offsets (state ctx) /\
    flushes (trace ctx') = flushes (trace ctx).
Proof.
  rewrite sync_event_log_unfold. cbv zeta.
  destruct (pendulum_parse _) as [dt|]; [|done].
  destruct (event_log_loop _ _ _ _ _) as [[m| |] ctx1] eqn:Hloop; [|done..].
  intros [= <-]. cbn [trace state bookmarks offsets].
  destruct (seeded_frame (bookmark IDS.EVENT_LOG) ctx) as (_ & _ & _ & Hoff & Htr).
  destruct (event_log_loop_frame _ _ _ _ _ _ _ Hloop) as (_ & _ & Hst & Hfl & _).
  apply event_log_loop_Return in Hloop as (written & Hem & ->).
  exists written. rewrite Hem, Hst, Hfl, Htr, Hoff. done.
Qed.

(** A completed [paginated_sync] never sets a bookmark below the start it
    was given. *)
Lemma paginated_sync_bookmark_ge tap_stream_id req start ctx ctx' :
  paginated_sync tap_stream_id req start ctx = (Return tt, ctx') ->
  exists m,
    bookmarks (state ctx') !! bookmark tap_stream_id = Some m /\
    str_ge m start = true.
Proof.
  intros (written & _ & _ & Hbm & _)%paginated_sync_Return.
  eexists. rewrite Hbm, lookup_insert_eq. split; [done|].
  apply max_of_ge_init.
Qed.

End CompletionFacts.

Section RequestFacts.
Context `{Collaborators}.
Local Open Scope list_scope.

Lemma append_String c (s t : string) :
  (String c s ++ t)%string = String c (s ++ t)%string.
Proof. done. Qed.

Lemma append_nil_l (t : string) : (EmptyString ++ t)%string = t.
Proof. done. Qed.

Lemma append_empty (s : string) : (s ++ EmptyString)%string = s.
Proof.
  induction s as [|c tl IH]; [done|]. by rewrite append_String, IH.
Qed.

Lemma append_assoc (a b c : string) :
  ((a ++ b) ++ c)%string = (a ++ (b ++ c))%string.
Proof.
  induction a as [|x tl IH]; [done|]. by rewrite !append_String, IH.
Qed.

Lemma strftime_minute dt :
  datetime.strftime dt "%Y-%m-%dT%H:%M" = minute_text dt.
Proof.
  unfold minute_text. cbn [datetime.strftime datetime.directive].
  by rewrite !append_String, !append_nil_l, append_empty.
Qed.

Lemma strftime_second dt :
  datetime.strftime dt "%Y-%m-%dT%H:%M:%S" = second_text dt.
Proof.
  unfold second_text, minute_text. cbn [datetime.strftime datetime.directive].
  by rewrite !append_assoc, !append_String, !append_nil_l, append_empty.
Qed.

(** Neither text depends on what lies below its precision. *)
Lemma minute_text_truncates dt :
  minute_text dt = minute_text (datetime.truncate_to_minute dt).
Proof. done. Qed.

Lemma second_text_truncates dt :
  second_text dt = second_text (datetime.truncate_to_second dt).
Proof. done. Qed.

Lemma event_log_loop_requests fuel :
  forall formatted_start max_bookmark cursor_next ctx,
    exists exchanges,
      requests_of
        (trace (event_log_loop fuel formatted_start max_bookmark
                               cursor_next ctx).2)
        = requests_of (trace ctx) ++ exchanges /\
      cursor_chained formatted_start
        (if truthy cursor_next then Some cursor_next else None) exchanges.
Proof.
  induction fuel as [|fuel IH]; intros formatted_start max_bookmark cursor_next ctx.
  - exists []. cbn. by rewrite app_nil_r.
  - rewrite event_log_loop_S. cbv zeta.
    assert (forall response,
              cursor_chained formatted_start
                (if truthy cursor_next then Some cursor_next else None)
                [(create_request IDS.EVENT_LOG
                    (event_log_params formatted_start cursor_next), response)])
      as Hone.
    { intros response. cbn. unfold event_log_params.
      by destruct (truthy cursor_next). }
    split_outcomes.
    all: try (eexists [_]; split; [|by apply Hone];
              cbn [snd trace];
              rewrite ?requests_of_app, ?requests_of_records; cbn;
              by rewrite ?app_nil_r).
    match goal with
    | |- context [event_log_loop fuel ?fs ?mb ?cur ?c] =>
        destruct (IH fs mb cur c) as (later & Hreq & Hchain)
    end.
    eexists (_ :: later). split.
    + rewrite Hreq. cbn [trace].
      rewrite ?requests_of_app, ?requests_of_records. cbn.
      rewrite ?app_nil_r, <- app_assoc. reflexivity.
    + match goal with
      | Hnext : truthy _ = true |- _ => rewrite Hnext in Hchain
      end.
      specialize (Hone (Return a)). cbn in Hone. cbn.
      destruct Hone as (Hpath & Hparams & _).
      split; [done|]. split; [done|].
      destruct later as [|x later]; [done|].
      match goal with
      | Hget : getitem _ "cursor_next" = Return _ |- _ =>
          unfold getitem in Hget;
          destruct (_ !! "cursor_next") as [v|] eqn:Hv; [|done];
          injection Hget as ->
      end.
      by eexists _, _.
Qed.

End RequestFacts.

Section LookupFacts.
Context `{Collaborators}.
Local Open Scope list_scope.

Lemma str_or_missing_cases key rs :
  Forall (str_or_missing key) rs ->
  Forall (has_field key) rs \/ Exists (fun r => r !! key = None) rs.
Proof.
  induction 1 as [|r rs [Hr|Hr] _ [IH|IH]].
  - by left.
  - right. by constructor.
  - right. by constructor.
  - left. by constructor.
  - right. by constructor 2.
Qed.

Lemma for_pages_missing tap_stream_id start pages :
  forall max_bookmark ctx,
    meets_missing_field tap_stream_id (schema_dt_paths ctx tap_stream_id) pages ->
    exists ctx',
      for_pages tap_stream_id start pages max_bookmark ctx
        = (Raised (KeyError (BOOK_KEYS tap_stream_id)), ctx').
Proof.
  induction pages as [|page rest IH|e]; intros max_bookmark ctx; [done| |done].
  cbn [meets_missing_field]. intros [Hall Hcase].
  destruct (str_or_missing_cases _ _ Hall) as [Hfields|Hmissing].
  - rewrite for_pages_step by done.
    destruct Hcase as [Hmissing|Hrest].
    + exfalso. apply Exists_exists in Hmissing as (r & Hin & Hnone).
      rewrite Forall_forall in Hfields.
      destruct (Hfields r Hin) as [s Hs]. congruence.
    + by apply IH.
  - cbn [for_pages]. run_sync.
    rewrite (records_from_missing _ start _ Hall Hmissing). eauto.
Qed.

Lemma dump_payloads_cons event rest :
  dump_payloads (event :: rest) =
  match event !! "data" with
  | None => Raised (KeyError "data")
  | Some data =>
      match event !! "previous_data" with
      | None => Raised (KeyError "previous_data")
      | Some previous =>
          obind (dump_payloads rest) (fun dumped =>
            Return (<["previous_data" := VStr (json_dumps previous)]>
                      (<["data" := VStr (json_dumps data)]> event) :: dumped))
      end
  end.
Proof.
  cbn [dump_payloads]. unfold getitem.
  destruct (event !! "data") as [data|]; cbn [obind]; [|done].
  rewrite lookup_insert_ne by done.
  by destruct (event !! "previous_data").
Qed.

(** What the loop over the payloads of the events comes to: it raises on
    the first event without one of the two payloads, and otherwise leaves
    every other field of every event as it was. *)
Lemma dump_payloads_cases events :
  dump_payloads events = Raised (KeyError "data") \/
  dump_payloads events = Raised (KeyError "previous_data") \/
  exists dumped,
    dump_payloads events = Return dumped /\
    Forall (fun e => is_Some (e !! "data") /\ is_Some (e !! "previous_data"))
           events /\
    Forall2 (fun e d => d !! "date_updated" = e !! "date_updated") events dumped.
Proof.
  induction events as [|event rest IH].
  - right. right. exists []. by repeat split.
  - rewrite dump_payloads_cons.
    destruct (event !! "data") as [data|] eqn:Hdata; [|by left].
    destruct (event !! "previous_data") as [previous|] eqn:Hprev;
      [|by (right; left)].
    destruct IH as [->|[->|(dumped & -> & Hall & Hsame)]];
      [by left|by (right; left)|].
    right. right. eexists. split; [done|]. split.
    + constructor; [by rewrite Hdata, Hprev|done].
    + constructor; [|done]. by rewrite !lookup_insert_ne.
Qed.

Lemma Forall2_str_or_missing key (events dumped : list Record) :
  Forall2 (fun e d => d !! key = e !! key) events dumped ->
  Forall (str_or_missing key) events ->
  Forall (str_or_missing key) dumped.
Proof.
  induction 1 as [|e d events dumped Hsame _ IH]; [done|].
  intros [He Hall]%Forall_cons. constructor; [|by apply IH].
  unfold str_or_missing in *. by rewrite Hsame.
Qed.

Lemma Forall2_missing key (events dumped : list Record) :
  Forall2 (fun e d => d !! key = e !! key) events dumped ->
  Exists (fun r => r !! key = None) events ->
  Exists (fun r => r !! key = None) dumped.
Proof.
  induction 1 as [|e d events dumped Hsame _ IH]; [done|].
  intros [He|Hex]%Exists_cons.
  - constructor. by rewrite Hsame.
  - constructor 2. by apply IH.
Qed.

End LookupFacts.

(** ** The claims of the specification *)

Section Claims.
Context `{Collaborators}.
Local Open Scope list_scope.

(** C1. In [paginated_sync], for a page whose transformed records all hold
    the bookmark field, the records written are exactly the transformed
    records whose field is at or after the start watermark, and the running
    maximum handed to the next page is the maximum over all the transformed
    records of the page: it is at or above the value of every one of them,
    written or filtered out, and is the previous maximum or one of their
    values. *)
Theorem C1_page_writes_filtered_and_maximises_over_all
    (tap_stream_id : IDS.t) (start : string) (page : Page) (rest : PageStream)
    (max_bookmark : string) (ctx : Ctx) :
  Forall (has_field (BOOK_KEYS tap_stream_id)) (transformed tap_stream_id ctx page) ->
  exists ctx1 newer,
    for_pages tap_stream_id start (Yield page rest) max_bookmark ctx
      = for_pages tap_stream_id start rest newer ctx1 /\
    (exists written,
       emitted tap_stream_id (trace ctx1)
         = emitted tap_stream_id (trace ctx) ++ written /\
       forall r, In r written <->
         In r (transformed tap_stream_id ctx page) /\
         exists s, r !! BOOK_KEYS tap_stream_id = Some (VStr s) /\
                   str_ge s start = true) /\
    (forall r s, In r (transformed tap_stream_id ctx page) ->
       r !! BOOK_KEYS tap_stream_id = Some (VStr s) -> str_ge newer s = true) /\
    str_ge newer max_bookmark = true /\
    (newer = max_bookmark \/
     exists r, In r (transformed tap_stream_id ctx page) /\
               r !! BOOK_KEYS tap_stream_id = Some (VStr newer)).
Proof.
  intros Hall.
  set (key := BOOK_KEYS tap_stream_id) in *.
  set (rs := transformed tap_stream_id ctx page) in *.
  exists (after_page tap_stream_id start page ctx), (max_of key max_bookmark rs).
  split; [by apply for_pages_step|]. split; [|split; [|split]].
  - exists (kept key start rs). split.
    + unfold after_page. cbn [trace]. fold key rs.
      rewrite !emitted_app, emitted_records. cbn. by rewrite app_nil_r.
    + intros r. rewrite kept_spec. by setoid_rewrite field_Some.
  - intros r s Hin Hs. eapply max_of_upper; [done|]. by apply field_Some.
  - apply max_of_ge_init.
  - destruct (max_of_in key rs max_bookmark) as [?|(r & Hin & Hr)]; [by left|].
    right. exists r. split; [done|]. by apply field_Some.
Qed.

(** C2. Nothing in the strategies catches an error of the transport, and
    a run that ends with an exception has set no bookmark. When the generator
    of pages raises anywhere down the stream, [paginated_sync] ends with an
    exception and the bookmarks it was entered with. When a request of the
    event log raises, its loop ends with that exception and the state it was
    entered with. And a run of any strategy that ends with an exception
    leaves the bookmarks as they were when the start watermark was read: the
    watermark of every stream is the one from before the sync, and a stream
    that had a bookmark before the sync still has that very bookmark. *)
Theorem C2_error_leaves_bookmark :
  (forall tap_stream_id req start ctx,
     fails (paginate (client ctx) tap_stream_id req
              (default 0 (offsets (state ctx) !! (tap_stream_id, "skip"))))
       = true ->
     exists e ctx',
       paginated_sync tap_stream_id req start ctx = (Raised e, ctx') /\
       bookmarks (state ctx') = bookmarks (state ctx)) /\
  (forall fuel formatted_start max_bookmark cursor_next ctx e c,
     request_with_handling (client ctx) IDS.EVENT_LOG
       (create_request IDS.EVENT_LOG
          (event_log_params formatted_start cursor_next))
       = (Raised e, c) ->
     exists ctx',
       event_log_loop (S fuel) formatted_start max_bookmark cursor_next ctx
         = (Raised e, ctx') /\
       state ctx' = state ctx) /\
  (forall tap_stream_id fuel utcnow ctx e ctx',
     sync_fn tap_stream_id fuel utcnow ctx = (Raised e, ctx') ->
     bookmarks (state ctx')
       = bookmarks (state (seeded (bookmark tap_stream_id) ctx)) /\
     (forall path, watermark ctx' path = watermark ctx path) /\
     (forall v, bookmarks (state ctx) !! bookmark tap_stream_id = Some v ->
                v <> EmptyString ->
                bookmarks (state ctx') = bookmarks (state ctx))).
Proof.
  split; [|split].
  - intros tap_stream_id req start ctx Hfails.
    rewrite paginated_sync_unfold.
    destruct (for_pages_fails tap_stream_id start _ start
                (entering tap_stream_id req ctx) Hfails) as (e & ctx' & Hloop).
    rewrite Hloop. exists e, ctx'. split; [done|].
    by apply for_pages_frame in Hloop as (_ & _ & _ & ? & _).
  - intros fuel formatted_start max_bookmark cursor_next ctx e c Hreq.
    rewrite event_log_loop_S. cbv zeta. rewrite Hreq. eauto.
  - intros tap_stream_id fuel utcnow ctx e ctx' Hrun.
    apply sync_fn_not_Return in Hrun as [Hcfg Hbm]; [|done].
    split; [done|]. split.
    + intros path.
      rewrite <- (seeded_watermark (bookmark tap_stream_id) ctx path).
      apply watermark_ext; [|done].
      by destruct (seeded_frame (bookmark tap_stream_id) ctx) as (-> & _).
    + intros v Hv Hne. by rewrite Hbm, (seeded_present _ _ _ Hv Hne).
Qed.

(** C4. A run of the event-log strategy that completes sets the bookmark to
    the minimum, in the order of strings, of the text of five minutes
    before the clock reading and the computed maximum -- the maximum of the
    start watermark and the [date_updated] of the events written; the
    bookmark is therefore never above the text of now minus five minutes,
    whatever the events hold. *)
Theorem C4_event_log_bookmark_is_clamped
    (fuel : nat) (utcnow : datetime.t) (ctx ctx' : Ctx) :
  sync_event_log fuel utcnow ctx = (Return tt, ctx') ->
  exists written committed_bookmark,
    emitted IDS.EVENT_LOG (trace ctx')
      = emitted IDS.EVENT_LOG (trace ctx) ++ written /\
    bookmarks (state ctx') !! bookmark IDS.EVENT_LOG = Some committed_bookmark /\
    committed_bookmark
      = str_min (singer_strftime (datetime.sub_seconds utcnow 300))
                (max_of "date_updated"
                        (watermark ctx (bookmark IDS.EVENT_LOG)) written) /\
    str_le committed_bookmark
           (singer_strftime (datetime.sub_seconds utcnow 300)) = true /\
    str_le committed_bookmark
           (max_of "date_updated"
                   (watermark ctx (bookmark IDS.EVENT_LOG)) written) = true.
Proof.
  intros (written & Hem & Hbm & _)%sync_event_log_Return.
  exists written. eexists. split; [done|].
  rewrite Hbm, lookup_insert_eq. split; [done|]. unfold clamped.
  change (5 * 60) with 300. split; [done|]. split.
  - apply str_min_le_l.
  - apply str_min_le_r.
Qed.

(** C5 (amended). After a completed sync of a stream other than the event
    log, the state last flushed is the state in memory, it holds no offset
    of the stream, and its bookmark is the greatest bookmark-field value of
    the records the sync wrote, or the start watermark handed to
    [paginated_sync] when it wrote none. After a completed sync of the
    event log the bookmark in memory is the clamped one, the minimum of now
    minus five minutes and the maximum, and the strategy has touched no
    offset and flushed nothing. *)
Theorem C5_completed_sync_state
    (tap_stream_id : IDS.t) (fuel : nat) (utcnow : datetime.t) (ctx ctx' : Ctx) :
  sync_fn tap_stream_id fuel utcnow ctx = (Return tt, ctx') ->
  (tap_stream_id <> IDS.EVENT_LOG ->
     exists start written,
       paginated_start tap_stream_id ctx = Some start /\
       persisted ctx' = Some (state ctx') /\
       (forall key, offsets (state ctx') !! (tap_stream_id, key) = None) /\
       emitted tap_stream_id (trace ctx')
         = emitted tap_stream_id (trace ctx) ++ written /\
       (written = [] ->
          bookmarks (state ctx') !! bookmark tap_stream_id = Some start) /\
       (written <> [] ->
          exists m,
            bookmarks (state ctx') !! bookmark tap_stream_id = Some m /\
            is_max_among (BOOK_KEYS tap_stream_id) m written)) /\
  (tap_stream_id = IDS.EVENT_LOG ->
     exists written,
       emitted IDS.EVENT_LOG (trace ctx')
         = emitted IDS.EVENT_LOG (trace ctx) ++ written /\
       bookmarks (state ctx') !! bookmark IDS.EVENT_LOG
         = Some (clamped utcnow
                   (max_of "date_updated"
                           (watermark ctx (bookmark IDS.EVENT_LOG)) written)) /\
       offsets (state ctx') = offsets (state ctx) /\
       flushes (trace ctx') = flushes (trace ctx)).
Proof.
  intros Hrun.
  assert (forall req start,
            paginated_start tap_stream_id ctx = Some start ->
            paginated_sync tap_stream_id req start
              (seeded (bookmark tap_stream_id) ctx) = (Return tt, ctx') ->
            exists start written,
              paginated_start tap_stream_id ctx = Some start /\
              persisted ctx' = Some (state ctx') /\
              (forall key, offsets (state ctx') !! (tap_stream_id, key) = None) /\
              emitted tap_stream_id (trace ctx')
                = emitted tap_stream_id (trace ctx) ++ written /\
              (written = [] ->
                 bookmarks (state ctx') !! bookmark tap_stream_id = Some start) /\
              (written <> [] ->
                 exists m,
                   bookmarks (state ctx') !! bookmark tap_stream_id = Some m /\
                   is_max_among (BOOK_KEYS tap_stream_id) m written))
    as Hpag.
  { intros req start Hstart
      (written & Hem & Hall & Hbm & Hoff & Hper)%paginated_sync_Return.
    destruct (seeded_frame (bookmark tap_stream_id) ctx) as (_ & _ & _ & _ & Htr).
    rewrite Htr in Hem.
    exists start, written. repeat split; try done.
    - intros ->. by rewrite Hbm, lookup_insert_eq.
    - intros Hne. eexists. rewrite Hbm, lookup_insert_eq. split; [done|].
      by apply max_of_is_max. }
  split.
  - intros Hne. destruct tap_stream_id; cbn [sync_fn] in Hrun; try done.
    + rewrite basic_paginator_unfold in Hrun. by eapply Hpag.
    + rewrite sync_leads_unfold in Hrun. cbv zeta in Hrun.
      destruct (pendulum_parse _); [by eapply Hpag|done].
    + rewrite sync_activities_unfold in Hrun. cbv zeta in Hrun.
      destruct (pendulum_parse _) as [dt|] eqn:Hdt; [|done].
      eapply Hpag; [|done]. cbn [paginated_start]. by rewrite Hdt.
    + rewrite basic_paginator_unfold in Hrun. by eapply Hpag.
    + rewrite basic_paginator_unfold in Hrun. by eapply Hpag.
  - intros ->. cbn [sync_fn] in Hrun.
    apply sync_event_log_Return in Hrun as (written & Hem & Hbm & Hoff & Hfl).
    exists written. by rewrite Hbm, lookup_insert_eq.
Qed.

(** C6 (amended). In [paginated_sync], once a page whose records all hold
    the bookmark field is written, and before the next page is asked for,
    the state is flushed with the skip offset of the page in it; its
    bookmarks are those from before the page: the running maximum stays in
    the loop and is not flushed page by page. *)
Theorem C6_page_persists_offset_only
    (tap_stream_id : IDS.t) (start : string) (page : Page) (rest : PageStream)
    (max_bookmark : string) (ctx : Ctx) :
  Forall (has_field (BOOK_KEYS tap_stream_id)) (transformed tap_stream_id ctx page) ->
  exists ctx1 newer events,
    for_pages tap_stream_id start (Yield page rest) max_bookmark ctx
      = for_pages tap_stream_id start rest newer ctx1 /\
    trace ctx1
      = trace ctx ++ EPage tap_stream_id page :: events ++ [EState (state ctx1)] /\
    persisted ctx1 = Some (state ctx1) /\
    offsets (state ctx1) !! (tap_stream_id, "skip") = Some (next_skip page) /\
    bookmarks (state ctx1) = bookmarks (state ctx).
Proof.
  intros Hall.
  set (to_write := kept (BOOK_KEYS tap_stream_id) start
                        (transformed tap_stream_id ctx page)).
  exists (after_page tap_stream_id start page ctx),
         (max_of (BOOK_KEYS tap_stream_id) max_bookmark
                 (transformed tap_stream_id ctx page)),
         (map (ERecord tap_stream_id) to_write
            ++ [ECounter tap_stream_id (length to_write)]).
  split; [by apply for_pages_step|].
  unfold after_page. fold to_write. cbn [trace state offsets bookmarks].
  repeat split.
  - cbn [app]. by rewrite <- app_assoc.
  - unfold persisted. cbn [trace]. by rewrite !last_state_app.
  - apply lookup_insert_eq.
Qed.

(** C7 (amended). The paginated strategies flush the state right after
    each page and as the last thing they do when the stream completes; the
    loop of the event log flushes nothing, whatever its outcome. *)
Theorem C7_flushes_of_the_strategies :
  (forall tap_stream_id start page rest max_bookmark ctx,
     Forall (has_field (BOOK_KEYS tap_stream_id))
            (transformed tap_stream_id ctx page) ->
     exists ctx1 newer events,
       for_pages tap_stream_id start (Yield page rest) max_bookmark ctx
         = for_pages tap_stream_id start rest newer ctx1 /\
       trace ctx1 = trace ctx ++ events ++ [EState (state ctx1)]) /\
  (forall tap_stream_id req start ctx ctx',
     paginated_sync tap_stream_id req start ctx = (Return tt, ctx') ->
     exists events, trace ctx' = trace ctx ++ events ++ [EState (state ctx')]) /\
  (forall fuel formatted_start max_bookmark cursor_next ctx o ctx',
     event_log_loop fuel formatted_start max_bookmark cursor_next ctx = (o, ctx') ->
     flushes (trace ctx') = flushes (trace ctx)).
Proof.
  split; [|split].
  - intros tap_stream_id start page rest max_bookmark ctx Hall.
    set (to_write := kept (BOOK_KEYS tap_stream_id) start
                          (transformed tap_stream_id ctx page)).
    exists (after_page tap_stream_id start page ctx),
           (max_of (BOOK_KEYS tap_stream_id) max_bookmark
                   (transformed tap_stream_id ctx page)),
           (EPage tap_stream_id page :: map (ERecord tap_stream_id) to_write
              ++ [ECounter tap_stream_id (length to_write)]).
    split; [by apply for_pages_step|].
    unfold after_page. fold to_write. cbn [trace state app].
    by rewrite <- app_assoc.
  - intros tap_stream_id req start ctx ctx'
      [events Htrace]%paginated_sync_Return_trace.
    eexists. rewrite Htrace, app_comm_cons. reflexivity.
  - intros fuel formatted_start max_bookmark cursor_next ctx o ctx' Hrun.
    by apply event_log_loop_frame in Hrun as (_ & _ & _ & ? & _).
Qed.

(** C8 (amended). In the loop of the event log, a response whose [data]
    is there but empty -- an empty array, or null -- ends the loop normally
    with the maximum unchanged and nothing written; a response without
    [data] is not read as the end of the pages: the lookup raises. *)
Theorem C8_empty_data_ends_loop_absent_data_raises
    (fuel : nat) (formatted_start max_bookmark : string) (cursor_next : value)
    (ctx : Ctx) (response : Record) (c : Client) :
  request_with_handling (client ctx) IDS.EVENT_LOG
    (create_request IDS.EVENT_LOG (event_log_params formatted_start cursor_next))
    = (Return response, c) ->
  (forall data,
     response !! "data" = Some data -> truthy data = false ->
     exists ctx',
       event_log_loop (S fuel) formatted_start max_bookmark cursor_next ctx
         = (Return max_bookmark, ctx') /\
       emitted IDS.EVENT_LOG (trace ctx') = emitted IDS.EVENT_LOG (trace ctx)) /\
  (response !! "data" = None ->
     exists ctx',
       event_log_loop (S fuel) formatted_start max_bookmark cursor_next ctx
         = (Raised (KeyError "data"), ctx')).
Proof.
  intros Hreq. split.
  - intros data Hdata Hfalsy. rewrite event_log_loop_S. cbv zeta.
    rewrite Hreq. unfold getitem. rewrite Hdata, Hfalsy. cbn [negb].
    eexists. split; [done|]. cbn [trace]. rewrite emitted_app. cbn.
    by rewrite app_nil_r.
  - intros Hdata. rewrite event_log_loop_S. cbv zeta.
    rewrite Hreq. unfold getitem. rewrite Hdata. eauto.
Qed.

(** C9. The requests of the three filtered strategies. Leads: the
    paginator is called on [/lead/] with the single parameter [query], the
    text [date_updated>=], the start to the minute between double quotes,
    and [ sort:date_updated]. Activities: on [/activity/] with the single
    parameter [date_created__gt], the look-back-adjusted start to the
    second. Event log: every request goes to [/event/] with
    [date_updated__gte], the start to the second; the first carries nothing
    else and each later one carries as [_cursor] the [cursor_next] of the
    response before it. The texts to the minute and to the second do not
    depend on what lies below their precision. *)
Theorem C9_request_parameters :
  (forall ctx dt,
     pendulum_parse (watermark ctx (bookmark IDS.LEADS)) = Some dt ->
     exists events,
       trace (sync_leads ctx).2 =
       trace ctx
         ++ EPaginate IDS.LEADS
              (mkRequest "/lead/"
                 {["query" :=
                     VStr ("date_updated>=" ++ dquote ++ minute_text dt ++ dquote
                           ++ " sort:date_updated")%string]})
              (default 0 (offsets (state ctx) !! (IDS.LEADS, "skip")))
         :: events) /\
  (forall ctx dt,
     pendulum_parse (watermark ctx (bookmark IDS.ACTIVITIES)) = Some dt ->
     exists events,
       trace (sync_activities ctx).2 =
       trace ctx
         ++ EPaginate IDS.ACTIVITIES
              (mkRequest "/activity/"
                 {["date_created__gt" :=
                     VStr (second_text
                             (datetime.sub_seconds dt
                                (default 0 (activities_window_seconds
                                              (config ctx)))))]})
              (default 0 (offsets (state ctx) !! (IDS.ACTIVITIES, "skip")))
         :: events) /\
  (forall fuel utcnow ctx dt,
     pendulum_parse (watermark ctx (bookmark IDS.EVENT_LOG)) = Some dt ->
     exists exchanges,
       requests_of (trace (sync_event_log fuel utcnow ctx).2)
         = requests_of (trace ctx) ++ exchanges /\
       cursor_chained (second_text dt) None exchanges) /\
  (forall dt,
     minute_text dt = minute_text (datetime.truncate_to_minute dt) /\
     second_text dt = second_text (datetime.truncate_to_second dt)).
Proof.
  split; [|split; [|split]].
  - intros ctx dt Hdt. rewrite sync_leads_unfold. cbv zeta. rewrite Hdt.
    destruct (paginated_sync_trace IDS.LEADS
                (create_request IDS.LEADS {["query" := VStr (leads_query dt)]})
                (watermark ctx (bookmark IDS.LEADS))
                (seeded (bookmark IDS.LEADS) ctx)) as [events Htrace].
    exists events. rewrite Htrace.
    destruct (seeded_frame (bookmark IDS.LEADS) ctx) as (_ & _ & _ & -> & ->).
    unfold leads_query. by rewrite strftime_minute.
  - intros ctx dt Hdt. rewrite sync_activities_unfold. cbv zeta. rewrite Hdt.
    destruct (paginated_sync_trace IDS.ACTIVITIES
                (create_request IDS.ACTIVITIES
                   {["date_created__gt" := VStr (activities_start dt ctx)]})
                (activities_start dt ctx)
                (seeded (bookmark IDS.ACTIVITIES) ctx)) as [events Htrace].
    exists events. rewrite Htrace.
    destruct (seeded_frame (bookmark IDS.ACTIVITIES) ctx) as (_ & _ & _ & -> & ->).
    unfold activities_start. by rewrite strftime_second.
  - intros fuel utcnow ctx dt Hdt. rewrite sync_event_log_unfold. cbv zeta.
    rewrite Hdt, strftime_second.
    destruct (event_log_loop_requests fuel (second_text dt)
                (watermark ctx (bookmark IDS.EVENT_LOG)) VNone
                (seeded (bookmark IDS.EVENT_LOG) ctx))
      as (exchanges & Hreq & Hchain).
    exists exchanges. split; [|done].
    destruct (seeded_frame (bookmark IDS.EVENT_LOG) ctx) as (_ & _ & _ & _ & Htr).
    rewrite Htr in Hreq. rewrite <- Hreq.
    by destruct (event_log_loop _ _ _ _ _) as [[m| |] ctx1].
  - intros dt. split; [apply minute_text_truncates|apply second_text_truncates].
Qed.

(** C10. Each record of a page must hold the bookmark field of its stream,
    and each event of the event log [data] and [previous_data] as well. In
    [paginated_sync], when a page of the stream holds a record without the
    field (and no record up to that page holds something else than a string
    there), the run ends with the lookup error of that field and with the
    bookmarks untouched. In the loop of the event log, when an event of the
    page lacks one of the three fields (and no event holds something else
    than a string as [date_updated]), the loop ends with the lookup error of
    one of them and with the state untouched. *)
Theorem C10_missing_field_aborts :
  (forall tap_stream_id req start ctx,
     meets_missing_field tap_stream_id (schema_dt_paths ctx tap_stream_id)
       (paginate (client ctx) tap_stream_id req
          (default 0 (offsets (state ctx) !! (tap_stream_id, "skip")))) ->
     exists ctx',
       paginated_sync tap_stream_id req start ctx
         = (Raised (KeyError (BOOK_KEYS tap_stream_id)), ctx') /\
       bookmarks (state ctx') = bookmarks (state ctx)) /\
  (forall fuel formatted_start max_bookmark cursor_next ctx response c data raw,
     request_with_handling (client ctx) IDS.EVENT_LOG
       (create_request IDS.EVENT_LOG
          (event_log_params formatted_start cursor_next))
       = (Return response, c) ->
     response !! "data" = Some data ->
     truthy data = true ->
     records_of data = Return raw ->
     Forall (str_or_missing "date_updated")
            (transform_dts raw (schema_dt_paths ctx IDS.EVENT_LOG)) ->
     Exists (fun e => e !! "data" = None \/ e !! "previous_data" = None \/
                      e !! "date_updated" = None)
            (transform_dts raw (schema_dt_paths ctx IDS.EVENT_LOG)) ->
     exists key ctx',
       In key ["data"; "previous_data"; "date_updated"] /\
       event_log_loop (S fuel) formatted_start max_bookmark cursor_next ctx
         = (Raised (KeyError key), ctx') /\
       state ctx' = state ctx).
Proof.
  split.
  - intros tap_stream_id req start ctx Hmeets.
    rewrite paginated_sync_unfold.
    destruct (for_pages_missing tap_stream_id start _ start
                (entering tap_stream_id req ctx) Hmeets) as [ctx' Hloop].
    rewrite Hloop. exists ctx'. split; [done|].
    by apply for_pages_frame in Hloop as (_ & _ & _ & ? & _).
  - intros fuel formatted_start max_bookmark cursor_next ctx response c data raw
      Hreq Hdata Htruthy Hraw Hall Hex.
    rewrite event_log_loop_S. cbv zeta. rewrite Hreq.
    unfold getitem at 1. rewrite Hdata, Htruthy, Hraw. cbn [negb].
    destruct (dump_payloads_cases
                (transform_dts raw (schema_dt_paths ctx IDS.EVENT_LOG)))
      as [->|[->|(dumped & -> & Hboth & Hsame)]].
    + exists "data". eexists. split; [by left|done].
    + exists "previous_data". eexists. split; [by (right; left)|done].
    + exists "date_updated". eexists. split; [by (right; right; left)|].
      rewrite new_max_bookmark_missing; [done|..].
      * by eapply Forall2_str_or_missing.
      * eapply Forall2_missing; [done|].
        apply Exists_exists in Hex as (e & Hin & Hcase).
        apply Exists_exists. exists e. split; [done|].
        rewrite Forall_forall in Hboth.
        destruct (Hboth e Hin) as [[? Hd] [? Hp]].
        destruct Hcase as [?|[?|?]]; congruence.
Qed.

End Claims.

(** ** More about [streams.py] *)

Section MoreFacts.
Context `{Collaborators}.
Local Open Scope list_scope.

(** *** [new_max_bookmark] *)

(** [new_max_bookmark] returns exactly when every record holds a string
    under the key. *)
Theorem new_max_bookmark_returns_iff (key init : string) (rs : list Record) :
  (exists m, new_max_bookmark init rs key = Return m) <->
  Forall (has_field key) rs.
Proof.
  split.
  - intros [m Hm]. by apply new_max_bookmark_Return in Hm as [? _].
  - intros Hall. eexists. by apply new_max_bookmark_ok.
Qed.

(** What [new_max_bookmark] returns is at or above the bookmark it was given
    and the value of every record, and is that bookmark or the value of one
    of the records. *)
Theorem new_max_bookmark_is_maximum (key init m : string) (rs : list Record) :
  new_max_bookmark init rs key = Return m ->
  str_ge m init = true /\
  (forall r s, In r rs -> r !! key = Some (VStr s) -> str_ge m s = true) /\
  (m = init \/ exists r, In r rs /\ r !! key = Some (VStr m)).
Proof.
  intros [_ ->]%new_max_bookmark_Return. split; [apply max_of_ge_init|]. split.
  - intros r s Hin Hs. eapply max_of_upper; [done|]. by apply field_Some.
  - destruct (max_of_in key rs init) as [?|(r & Hin & Hr)]; [by left|].
    right. exists r. split; [done|]. by apply field_Some.
Qed.

(** Going through two lists one after the other, handing the bookmark on,
    is going through their concatenation: the running maximum over the pages
    is the maximum over all their records, and an exception of the first
    list is the exception of the whole. *)
Theorem new_max_bookmark_app (key init : string) (rs1 rs2 : list Record) :
  new_max_bookmark init (rs1 ++ rs2) key =
  obind (new_max_bookmark init rs1 key)
        (fun m => new_max_bookmark m rs2 key).
Proof.
  revert init. induction rs1 as [|r rs1 IH]; intros init; [done|].
  cbn [app new_max_bookmark]. unfold getitem.
  destruct (r !! key) as [[| | |s| |]|]; cbn [obind value_gt]; try done.
Qed.

(** The bookmark only goes up: a value that is not above it leaves it as it
    is, so that records at or before the bookmark never change it. *)
Theorem new_max_bookmark_unchanged (key init : string) (rs : list Record) :
  Forall (fun r => exists s, r !! key = Some (VStr s) /\ str_ge init s = true) rs ->
  new_max_bookmark init rs key = Return init.
Proof.
  induction 1 as [|r rs (s & Hs & Hle) _ IH]; [done|].
  cbn [new_max_bookmark]. unfold getitem. rewrite Hs. cbn [obind value_gt].
  unfold str_gt. unfold str_ge in Hle. apply negb_true_iff in Hle.
  by rewrite Hle.
Qed.

(** *** One page of [paginated_sync] *)

Lemma records_from_Raised key start rs e :
  records_from rs key start = Raised e -> e = KeyError key \/ e = TypeError.
Proof.
  induction rs as [|r rs IH]; [done|].
  cbn [records_from]. unfold getitem.
  destruct (r !! key) as [[| | |s| |]|]; cbn [obind value_ge];
    try (intros [= <-]; by auto).
  destruct (records_from rs key start) as [l|e'|]; cbn [obind]; [done| |done].
  intros [= <-]. by apply IH.
Qed.

Lemma records_from_not_fields key start rs :
  ~ Forall (has_field key) rs ->
  exists e, records_from rs key start = Raised e.
Proof.
  intros Hnot. destruct (records_from rs key start) as [l|e|] eqn:Hrec.
  - by apply records_from_Return in Hrec as [? _].
  - by exists e.
  - by apply records_from_finished in Hrec.
Qed.

(** A page is written whole or not at all. When some record of the page
    does not hold a string under the bookmark field, the loop raises the
    lookup error of the field or a type error before anything of the page is
    written: the trace only gains the page, the state is as before, so that
    the offset still points at this page. *)
Theorem page_with_bad_record_writes_nothing
    (tap_stream_id : IDS.t) (start : string) (page : Page) (rest : PageStream)
    (max_bookmark : string) (ctx : Ctx) :
  ~ Forall (has_field (BOOK_KEYS tap_stream_id))
           (transformed tap_stream_id ctx page) ->
  exists e ctx',
    for_pages tap_stream_id start (Yield page rest) max_bookmark ctx
      = (Raised e, ctx') /\
    (e = KeyError (BOOK_KEYS tap_stream_id) \/ e = TypeError) /\
    state ctx' = state ctx /\
    trace ctx' = trace ctx ++ [EPage tap_stream_id page].
Proof.
  intros Hnot.
  destruct (records_from_not_fields _ start _ Hnot) as [e Hrec].
  exists e. eexists. split.
  - cbn [for_pages]. run_sync. fold (transformed tap_stream_id ctx page).
    rewrite Hrec. reflexivity.
  - split; [by eapply records_from_Raised|]. done.
Qed.

(** *** [fetch_all] *)

Lemma emitted_pages t tap_stream_id (pages : list Page) :
  emitted t (map (EPage tap_stream_id) pages) = [].
Proof. by induction pages. Qed.

Lemma flushes_pages tap_stream_id (pages : list Page) :
  flushes (map (EPage tap_stream_id) pages) = [].
Proof. by induction pages. Qed.

Lemma gather_unfold tap_stream_id pages :
  forall gathered ctx,
    gather tap_stream_id pages gathered ctx =
    (match error_of pages with
     | None => Return (gathered ++ concat (map records (pages_of pages)))
     | Some e => Raised e
     end,
     mkCtx (config ctx) (schema_dt_paths ctx) (client ctx) (state ctx)
           (trace ctx ++ map (EPage tap_stream_id) (pages_of pages))).
Proof.
  induction pages as [|page rest IH|e]; intros gathered ctx.
  - cbn. run_sync. rewrite !app_nil_r. by destruct ctx.
  - cbn [gather]. run_sync. rewrite IH.
    cbn [error_of pages_of map concat config schema_dt_paths client state trace].
    by rewrite <- !app_assoc.
  - cbn. run_sync. rewrite !app_nil_r. by destruct ctx.
Qed.

(** [fetch_all] asks the paginator for the stream from the start, with a
    request without parameters, whatever offset is stored. When the stream
    of pages ends it returns the records of all the pages, untransformed and
    in order; when it raises, [fetch_all] raises the same and returns
    nothing of the pages before. Either way it writes no record, flushes
    nothing and leaves the state as it was. *)
Theorem fetch_all_gathers_every_page (tap_stream_id : IDS.t) (ctx : Ctx) :
  let pages :=
    paginate (client ctx) tap_stream_id (mkRequest (PATHS tap_stream_id) ∅) 0 in
  (fetch_all tap_stream_id ctx).1 =
    match error_of pages with
    | None => Return (concat (map records (pages_of pages)))
    | Some e => Raised e
    end /\
  trace (fetch_all tap_stream_id ctx).2 =
    trace ctx
      ++ EPaginate tap_stream_id (mkRequest (PATHS tap_stream_id) ∅) 0
      :: map (EPage tap_stream_id) (pages_of pages) /\
  state (fetch_all tap_stream_id ctx).2 = state ctx /\
  (forall t, emitted t (trace (fetch_all tap_stream_id ctx).2)
               = emitted t (trace ctx)) /\
  flushes (trace (fetch_all tap_stream_id ctx).2) = flushes (trace ctx).
Proof.
  intros pages. unfold fetch_all. run_sync. rewrite gather_unfold.
  cbn [fst snd trace state client]. fold pages.
  split; [done|]. split; [by rewrite <- app_assoc|]. split; [done|]. split.
  - intros t. rewrite !emitted_app, emitted_pages. cbn. by rewrite !app_nil_r.
  - rewrite !flushes_app, flushes_pages. cbn. by rewrite !app_nil_r.
Qed.

(** *** When [paginated_sync] completes *)

Lemma for_pages_returns_iff tap_stream_id start pages :
  forall max_bookmark ctx,
    (exists m ctx',
       for_pages tap_stream_id start pages max_bookmark ctx = (Return m, ctx')) <->
    well_keyed tap_stream_id (schema_dt_paths ctx tap_stream_id) pages.
Proof.
  induction pages as [|page rest IH|e]; intros max_bookmark ctx.
  - cbn. run_sync. split; [done|]. eauto.
  - cbn [well_keyed]. fold (transformed tap_stream_id ctx page). split.
    + intros (m & ctx' & Hrun).
      pose proof (for_pages_Return_inv _ _ _ _ _ _ _ _ Hrun) as Hall.
      split; [done|]. rewrite (for_pages_step _ _ _ _ _ _ Hall) in Hrun.
      change (schema_dt_paths ctx tap_stream_id)
        with (schema_dt_paths (after_page tap_stream_id start page ctx)
                              tap_stream_id).
      eapply (proj1 (IH _ _)). eauto.
    + intros [Hall Hrest]. rewrite (for_pages_step _ _ _ _ _ _ Hall).
      by apply (proj2 (IH _ _)).
  - cbn. run_sync. split; [|done]. by intros (m & ctx' & ?).
Qed.

(** [paginated_sync] completes exactly when the stream of pages ends without
    raising and every record of every page holds, once transformed, a string
    under the bookmark field of the stream. *)
Theorem paginated_sync_completes_iff
    (tap_stream_id : IDS.t) (req : Request) (start : string) (ctx : Ctx) :
  (exists ctx', paginated_sync tap_stream_id req start ctx = (Return tt, ctx')) <->
  well_keyed tap_stream_id (schema_dt_paths ctx tap_stream_id)
    (paginate (client ctx) tap_stream_id req
       (default 0 (offsets (state ctx) !! (tap_stream_id, "skip")))).
Proof.
  rewrite paginated_sync_unfold.
  rewrite <- (for_pages_returns_iff tap_stream_id start _ start
                (entering tap_stream_id req ctx)).
  destruct (for_pages _ _ _ _ _) as [[m| |] ctx1]; split.
  - eauto.
  - eauto.
  - by intros [? ?].
  - by intros (? & ? & ?).
  - by intros [? ?].
  - by intros (? & ? & ?).
Qed.

(** *** What any run writes, counts and touches *)

Lemma counted_app t l1 l2 : counted t (l1 ++ l2) = (counted t l1 + counted t l2)%nat.
Proof. apply sum_list_with_app. Qed.

Lemma counted_records t t' rs : counted t (map (ERecord t') rs) = O.
Proof. by induction rs. Qed.

Lemma emitted_records_other t t' rs : t' <> t -> emitted t (map (ERecord t') rs) = [].
Proof.
  intros Hne. induction rs as [|r rs IH]; [done|].
  cbn. unfold emitted in *. cbn. by rewrite decide_False.
Qed.

Lemma sound_events_nil tap_stream_id in_range : sound_events tap_stream_id in_range [].
Proof. by repeat split. Qed.

Lemma sound_events_app tap_stream_id in_range l1 l2 :
  sound_events tap_stream_id in_range l1 ->
  sound_events tap_stream_id in_range l2 ->
  sound_events tap_stream_id in_range (l1 ++ l2).
Proof.
  intros (Hr1 & Ho1 & Hc1) (Hr2 & Ho2 & Hc2). repeat split.
  - intros r. rewrite emitted_app. intros [?|?]%in_app_or; auto.
  - intros t Hne. by rewrite emitted_app, Ho1, Ho2.
  - intros t. by rewrite counted_app, emitted_app, length_app, Hc1, Hc2.
Qed.

Lemma sound_events_written tap_stream_id (in_range : Record -> Prop) rs :
  (forall r, In r rs -> in_range r) ->
  sound_events tap_stream_id in_range
    (map (ERecord tap_stream_id) rs ++ [ECounter tap_stream_id (length rs)]).
Proof.
  intros Hrs. repeat split.
  - intros r. rewrite emitted_app, emitted_records. cbn. rewrite app_nil_r. auto.
  - intros t Hne. rewrite emitted_app, emitted_records_other by done. done.
  - intros t. rewrite counted_app, counted_records, emitted_app. cbn.
    destruct (decide (tap_stream_id = t)) as [<-|Hne].
    + rewrite emitted_records. cbn. rewrite app_nil_r. lia.
    + by rewrite emitted_records_other.
Qed.

Lemma sound_events_silent tap_stream_id in_range e :
  match e with ERecord _ _ | ECounter _ _ => False | _ => True end ->
  sound_events tap_stream_id in_range [e].
Proof. destruct e; by repeat split. Qed.

Lemma for_pages_any tap_stream_id start pages :
  forall max_bookmark ctx o ctx',
    for_pages tap_stream_id start pages max_bookmark ctx = (o, ctx') ->
    (exists events,
       trace ctx' = trace ctx ++ events /\
       sound_events tap_stream_id (from_start tap_stream_id start) events) /\
    (forall path, path <> (tap_stream_id, "skip") ->
       offsets (state ctx') !! path = offsets (state ctx) !! path).
Proof.
  induction pages as [|page rest IH|e]; intros max_bookmark ctx o ctx' Hrun.
  - revert Hrun. cbn. run_sync. intros [= <- <-]. split; [|done].
    exists []. split; [by rewrite app_nil_r|apply sound_events_nil].
  - destruct (records_from
                (transformed tap_stream_id ctx page)
                (BOOK_KEYS tap_stream_id) start) as [to_write|e|] eqn:Hrec.
    + apply records_from_Return in Hrec as [Hall _].
      rewrite (for_pages_step _ _ _ _ _ _ Hall) in Hrun.
      apply IH in Hrun as [(events & -> & Hsound) Hoff]. split.
      * set (to_write' := kept (BOOK_KEYS tap_stream_id) start
                               (transformed tap_stream_id ctx page)).
        exists (([EPage tap_stream_id page]
                   ++ (map (ERecord tap_stream_id) to_write'
                         ++ [ECounter tap_stream_id (length to_write')])
                   ++ [EState (state (after_page tap_stream_id start page ctx))])
                  ++ events).
        split.
        { unfold after_page. fold to_write'. cbn [trace state].
          rewrite <- !app_assoc. cbn [app]. reflexivity. }
        apply sound_events_app; [|done].
        apply sound_events_app; [by apply sound_events_silent|].
        apply sound_events_app; [|by apply sound_events_silent].
        apply sound_events_written. intros r Hr.
        apply kept_spec in Hr as (_ & s & Hs & Hge).
        exists s. split; [by apply field_Some|done].
      * intros path Hne. rewrite Hoff by done. unfold after_page.
        cbn [state offsets]. by rewrite lookup_insert_ne.
    + revert Hrun. cbn [for_pages]. run_sync.
      fold (transformed tap_stream_id ctx page). rewrite Hrec.
      intros [= <- <-]. cbn [trace state]. split; [|done].
      eexists. split; [reflexivity|by apply sound_events_silent].
    + by apply records_from_finished in Hrec.
  - revert Hrun. cbn. run_sync. intros [= <- <-]. split; [|done].
    exists []. split; [by rewrite app_nil_r|apply sound_events_nil].
Qed.

Lemma sound_events_weaken tap_stream_id (P Q : Record -> Prop) events :
  (forall r, P r -> Q r) ->
  sound_events tap_stream_id P events -> sound_events tap_stream_id Q events.
Proof. intros HPQ (Hr & Ho & Hc). repeat split; auto. Qed.

Lemma event_log_loop_any fuel :
  forall formatted_start max_bookmark cursor_next ctx o ctx',
    event_log_loop fuel formatted_start max_bookmark cursor_next ctx = (o, ctx') ->
    exists events,
      trace ctx' = trace ctx ++ events /\
      sound_events IDS.EVENT_LOG (fun _ => True) events.
Proof.
  induction fuel as [|fuel IH]; intros formatted_start max_bookmark cursor_next ctx o ctx'.
  - cbn. run_sync. intros [= <- <-]. exists [].
    split; [by rewrite app_nil_r|apply sound_events_nil].
  - rewrite event_log_loop_S. cbv zeta. split_outcomes.
    all: try (intros [= <- <-]; cbn [trace]; rewrite <- ?app_assoc;
              eexists; split; [reflexivity|];
              repeat (apply sound_events_app;
                      [first [by apply sound_events_silent
                             |by apply sound_events_written]|]);
              first [by apply sound_events_silent
                    |by apply sound_events_written]).
    intros Hrun. apply IH in Hrun as (events & -> & Hsound).
    cbn [trace]. rewrite <- ?app_assoc. eexists. split; [reflexivity|].
    apply sound_events_app; [by apply sound_events_silent|].
    rewrite app_assoc.
    apply sound_events_app; [by apply sound_events_written|done].
Qed.

Lemma filter_other_stream (tap_stream_id : IDS.t) (m : gmap (IDS.t * string) Z)
    (path : IDS.t * string) :
  path.1 <> tap_stream_id ->
  filter (fun kv => kv.1.1 ≠ tap_stream_id) m !! path = m !! path.
Proof.
  intros Hne. apply option_eq. intros v.
  rewrite map_lookup_filter_Some. cbn. split; [by intros [? _]|done].
Qed.

Lemma seeded_other path ctx (other : IDS.t * string) :
  other <> path ->
  bookmarks (state (seeded path ctx)) !! other = bookmarks (state ctx) !! other.
Proof.
  intros Hne. unfold seeded.
  destruct (bookmarks (state ctx) !! path) as [v|]; cbn.
  - destruct (String.eqb v EmptyString); cbn; [|done]. by rewrite lookup_insert_ne.
  - by rewrite lookup_insert_ne.
Qed.

Lemma paginated_sync_any tap_stream_id req start ctx o ctx' :
  paginated_sync tap_stream_id req start ctx = (o, ctx') ->
  (exists events,
     trace ctx' = trace ctx ++ events /\
     sound_events tap_stream_id (from_start tap_stream_id start) events) /\
  (forall path, path.1 <> tap_stream_id ->
     bookmarks (state ctx') !! path = bookmarks (state ctx) !! path /\
     offsets (state ctx') !! path = offsets (state ctx) !! path).
Proof.
  rewrite paginated_sync_unfold.
  destruct (for_pages _ _ _ _ _) as [o1 ctx1] eqn:Hloop.
  pose proof (for_pages_frame _ _ _ _ _ _ _ Hloop) as (_ & _ & _ & Hbm & _).
  apply for_pages_any in Hloop as [(events & Htrace & Hsound) Hoff].
  unfold entering in Htrace, Hbm, Hoff. cbn [trace state] in Htrace, Hbm, Hoff.
  assert (forall path : IDS.t * string,
            path.1 <> tap_stream_id -> path <> (tap_stream_id, "skip")) as Hskip.
  { intros path Hne ->. by apply Hne. }
  assert (forall path : IDS.t * string,
            path.1 <> tap_stream_id -> bookmark tap_stream_id <> path) as Hmark.
  { intros path Hne <-. by apply Hne. }
  destruct o1 as [m|e|]; intros [= <- <-].
  - split.
    + exists ((EPaginate tap_stream_id req
                 (default 0 (offsets (state ctx) !! (tap_stream_id, "skip")))
               :: events) ++ [EState (state (committed tap_stream_id m ctx1))]).
      split.
      { unfold committed. cbn [trace state]. rewrite Htrace.
        rewrite <- !app_assoc. reflexivity. }
      apply sound_events_app; [|by apply sound_events_silent].
      by apply (sound_events_app _ _ [_]); [apply sound_events_silent|].
    + intros path Hne. unfold committed. cbn [state bookmarks offsets]. split.
      * rewrite lookup_insert_ne by auto. by rewrite Hbm.
      * rewrite filter_other_stream by done. auto.
  - split.
    + eexists. rewrite Htrace, <- app_assoc. split; [reflexivity|].
      by apply (sound_events_app _ _ [_]); [apply sound_events_silent|].
    + intros path Hne. rewrite Hbm. auto.
  - split.
    + eexists. rewrite Htrace, <- app_assoc. split; [reflexivity|].
      by apply (sound_events_app _ _ [_]); [apply sound_events_silent|].
    + intros path Hne. rewrite Hbm. auto.
Qed.

Lemma sync_fn_any tap_stream_id fuel utcnow ctx o ctx' :
  sync_fn tap_stream_id fuel utcnow ctx = (o, ctx') ->
  (exists events,
     trace ctx' = trace ctx ++ events /\
     sound_events tap_stream_id (in_range tap_stream_id ctx) events) /\
  (forall path, path.1 <> tap_stream_id ->
     bookmarks (state ctx') !! path = bookmarks (state ctx) !! path /\
     offsets (state ctx') !! path = offsets (state ctx) !! path).
Proof.
  intros Hrun.
  pose proof (seeded_frame (bookmark tap_stream_id) ctx)
    as (_ & _ & _ & Hoff & Htr).
  assert (forall path : IDS.t * string,
            path.1 <> tap_stream_id -> path <> bookmark tap_stream_id) as Hmark.
  { intros path Hne ->. by apply Hne. }
  assert (forall req start,
            paginated_start tap_stream_id ctx = Some start ->
            paginated_sync tap_stream_id req start
              (seeded (bookmark tap_stream_id) ctx) = (o, ctx') ->
            (exists events,
               trace ctx' = trace ctx ++ events /\
               sound_events tap_stream_id (in_range tap_stream_id ctx) events) /\
            (forall path, path.1 <> tap_stream_id ->
               bookmarks (state ctx') !! path = bookmarks (state ctx) !! path /\
               offsets (state ctx') !! path = offsets (state ctx) !! path))
    as Hpag.
  { intros req start Hstart [(events & Htrace & Hsound) Hframe]%paginated_sync_any.
    split.
    - exists events. rewrite Htrace, Htr. split; [done|].
      eapply sound_events_weaken; [|done].
      intros r Hr start' Hstart' _. congruence.
    - intros path Hne. destruct (Hframe path Hne) as [-> ->].
      by rewrite seeded_other, Hoff by auto. }
  assert (forall e,
            (o, ctx') = (Raised e, seeded (bookmark tap_stream_id) ctx) ->
            (exists events,
               trace ctx' = trace ctx ++ events /\
               sound_events tap_stream_id (in_range tap_stream_id ctx) events) /\
            (forall path, path.1 <> tap_stream_id ->
               bookmarks (state ctx') !! path = bookmarks (state ctx) !! path /\
               offsets (state ctx') !! path = offsets (state ctx) !! path))
    as Hparse.
  { intros e [= -> ->]. split.
    - exists []. rewrite Htr, app_nil_r. split; [done|apply sound_events_nil].
    - intros path Hne. by rewrite seeded_other, Hoff by auto. }
  destruct tap_stream_id; cbn [sync_fn] in Hrun.
  - rewrite basic_paginator_unfold in Hrun. by eapply Hpag.
  - rewrite sync_leads_unfold in Hrun. cbv zeta in Hrun.
    destruct (pendulum_parse _); [by eapply Hpag|by eapply Hparse].
  - rewrite sync_activities_unfold in Hrun. cbv zeta in Hrun.
    destruct (pendulum_parse _) as [dt|] eqn:Hdt; [|by eapply Hparse].
    eapply Hpag; [|done]. cbn [paginated_start]. by rewrite Hdt.
  - rewrite basic_paginator_unfold in Hrun. by eapply Hpag.
  - rewrite basic_paginator_unfold in Hrun. by eapply Hpag.
  - rewrite sync_event_log_unfold in Hrun. cbv zeta in Hrun.
    destruct (pendulum_parse _); [|by eapply Hparse].
    destruct (event_log_loop _ _ _ _ _) as [o1 ctx1] eqn:Hloop.
    pose proof (event_log_loop_frame _ _ _ _ _ _ _ Hloop) as (_ & _ & Hst & _).
    apply event_log_loop_any in Hloop as (events & Htrace & Hsound).
    assert (sound_events IDS.EVENT_LOG (in_range IDS.EVENT_LOG ctx) events)
      as Hsound'.
    { eapply sound_events_weaken; [|done]. by intros r _ start _ ?. }
    rewrite Htr in Htrace.
    destruct o1 as [m|e|]; injection Hrun as <- <-; cbn [trace state bookmarks offsets].
    + split; [by eauto|]. intros path Hne.
      rewrite lookup_insert_ne, Hst by (intros <-; by apply Hne).
      by rewrite seeded_other, Hoff by auto.
    + split; [by eauto|]. intros path Hne. rewrite Hst.
      by rewrite seeded_other, Hoff by auto.
    + split; [by eauto|]. intros path Hne. rewrite Hst.
      by rewrite seeded_other, Hoff by auto.
Qed.

(** Whatever its outcome, a paginated strategy writes for its stream only
    records whose bookmark field is at or after the start it handed to
    [paginated_sync]: the watermark of the stream and, for the activities,
    the look-back-adjusted start. *)
Theorem written_records_from_start
    (tap_stream_id : IDS.t) (fuel : nat) (utcnow : datetime.t)
    (ctx ctx' : Ctx) (o : Outcome unit) (start : string) :
  tap_stream_id <> IDS.EVENT_LOG ->
  paginated_start tap_stream_id ctx = Some start ->
  sync_fn tap_stream_id fuel utcnow ctx = (o, ctx') ->
  exists written,
    emitted tap_stream_id (trace ctx')
      = emitted tap_stream_id (trace ctx) ++ written /\
    forall r, In r written ->
      exists s, r !! BOOK_KEYS tap_stream_id = Some (VStr s) /\
                str_ge s start = true.
Proof.
  intros Hne Hstart [(events & -> & Hrange & _) _]%sync_fn_any.
  exists (emitted tap_stream_id events). split; [apply emitted_app|].
  intros r Hr. by apply (Hrange r Hr start).
Qed.

(** Whatever its outcome, a strategy keeps the record counter of every
    stream in step with the records written: what the run adds to the
    counter is the number of records it writes. *)
Theorem counter_matches_records
    (tap_stream_id : IDS.t) (fuel : nat) (utcnow : datetime.t)
    (ctx ctx' : Ctx) (o : Outcome unit) (t : IDS.t) :
  sync_fn tap_stream_id fuel utcnow ctx = (o, ctx') ->
  (counted t (trace ctx') + length (emitted t (trace ctx))
   = counted t (trace ctx) + length (emitted t (trace ctx')))%nat.
Proof.
  intros [(events & -> & _ & _ & Hcount) _]%sync_fn_any.
  rewrite counted_app, emitted_app, length_app, Hcount. lia.
Qed.

(** Whatever its outcome, a strategy writes records of its own stream only
    and leaves the bookmarks and the offsets of every other stream as they
    were. *)
Theorem other_streams_untouched
    (tap_stream_id : IDS.t) (fuel : nat) (utcnow : datetime.t)
    (ctx ctx' : Ctx) (o : Outcome unit) :
  sync_fn tap_stream_id fuel utcnow ctx = (o, ctx') ->
  (forall t, t <> tap_stream_id ->
     emitted t (trace ctx') = emitted t (trace ctx)) /\
  (forall path, path.1 <> tap_stream_id ->
     bookmarks (state ctx') !! path = bookmarks (state ctx) !! path /\
     offsets (state ctx') !! path = offsets (state ctx) !! path).
Proof.
  intros [(events & -> & _ & Hother & _) Hframe]%sync_fn_any. split; [|done].
  intros t Hne. by rewrite emitted_app, Hother, app_nil_r.
Qed.

(** *** Where the bookmark goes *)

(** A completed sync of a stream with the basic strategy, or of the leads,
    never sets the bookmark below the watermark it started from. *)
Theorem basic_and_leads_never_move_back
    (tap_stream_id : IDS.t) (fuel : nat) (utcnow : datetime.t) (ctx ctx' : Ctx) :
  tap_stream_id <> IDS.ACTIVITIES ->
  tap_stream_id <> IDS.EVENT_LOG ->
  sync_fn tap_stream_id fuel utcnow ctx = (Return tt, ctx') ->
  exists m,
    bookmarks (state ctx') !! bookmark tap_stream_id = Some m /\
    str_ge m (watermark ctx (bookmark tap_stream_id)) = true.
Proof.
  intros Hact Hlog Hrun.
  destruct tap_stream_id; cbn [sync_fn] in Hrun; try done.
  - rewrite basic_paginator_unfold in Hrun.
    by eapply paginated_sync_bookmark_ge.
  - rewrite sync_leads_unfold in Hrun. cbv zeta in Hrun.
    destruct (pendulum_parse _); [|done].
    by eapply paginated_sync_bookmark_ge.
  - rewrite basic_paginator_unfold in Hrun.
    by eapply paginated_sync_bookmark_ge.
  - rewrite basic_paginator_unfold in Hrun.
    by eapply paginated_sync_bookmark_ge.
Qed.

Lemma str_lt_le_trans a b c :
  str_lt a b = true -> str_le b c = true -> str_lt a c = true.
Proof.
  intros Hab Hbc. unfold str_le in Hbc. fold (str_lt c b) in Hbc.
  apply negb_true_iff in Hbc.
  destruct (str_lt b c) eqn:Hbc'; [by eapply str_lt_trans|].
  by rewrite <- (str_lt_connex _ _ Hbc' Hbc).
Qed.

(** A completed sync of the event log keeps the bookmark at or above the
    watermark it started from when that watermark is not after the text of
    five minutes before the clock reading; when it is after, the bookmark is
    set back to that text, whatever the events hold. *)
Theorem event_log_bookmark_and_the_clock
    (fuel : nat) (utcnow : datetime.t) (ctx ctx' : Ctx) :
  sync_event_log fuel utcnow ctx = (Return tt, ctx') ->
  exists m,
    bookmarks (state ctx') !! bookmark IDS.EVENT_LOG = Some m /\
    (str_le (watermark ctx (bookmark IDS.EVENT_LOG))
            (singer_strftime (datetime.sub_seconds utcnow 300)) = true ->
     str_ge m (watermark ctx (bookmark IDS.EVENT_LOG)) = true) /\
    (str_lt (singer_strftime (datetime.sub_seconds utcnow 300))
            (watermark ctx (bookmark IDS.EVENT_LOG)) = true ->
     m = singer_strftime (datetime.sub_seconds utcnow 300)).
Proof.
  intros (written & _ & Hbm & _)%sync_event_log_Return.
  eexists. rewrite Hbm, lookup_insert_eq. split; [done|].
  unfold clamped. change (5 * 60) with 300.
  set (five_minutes_ago := singer_strftime (datetime.sub_seconds utcnow 300)).
  set (start := watermark ctx (bookmark IDS.EVENT_LOG)).
  pose proof (max_of_ge_init "date_updated" written start) as Hmax.
  set (m := max_of "date_updated" start written) in *.
  split.
  - intros Hle. unfold str_min. destruct (str_lt m five_minutes_ago); [done|].
    by rewrite <- str_le_ge.
  - intros Hlt. unfold str_min.
    destruct (str_lt m five_minutes_ago) eqn:Hm; [|done].
    rewrite <- str_le_ge in Hmax.
    pose proof (str_lt_le_trans _ _ _ Hlt Hmax) as Hcycle.
    by rewrite (str_lt_asym _ _ Hm) in Hcycle.
Qed.

(** *** Resuming *)

Lemma yield_all_snoc pages page rest :
  yield_all (pages ++ [page]) rest = yield_all pages (Yield page rest).
Proof. unfold yield_all. by rewrite fold_right_app. Qed.

Lemma for_pages_yield_all tap_stream_id start paths pages rest :
  forall max_bookmark ctx,
    schema_dt_paths ctx tap_stream_id = paths ->
    Forall (fun page =>
              Forall (has_field (BOOK_KEYS tap_stream_id))
                     (FORMATTERS_get tap_stream_id
                        (transform_dts (records page) paths))) pages ->
    exists newer ctx1,
      for_pages tap_stream_id start (yield_all pages rest) max_bookmark ctx
        = for_pages tap_stream_id start rest newer ctx1 /\
      schema_dt_paths ctx1 tap_stream_id = paths.
Proof.
  induction pages as [|page pages IH]; intros max_bookmark ctx Hpaths Hall.
  - by exists max_bookmark, ctx.
  - apply Forall_cons in Hall as [Hpage Hall]. cbn [yield_all fold_right].
    fold (yield_all pages rest). rewrite <- Hpaths in Hpage.
    rewrite (for_pages_step _ _ _ _ _ _ Hpage).
    by apply IH.
Qed.

(** A run of [paginated_sync] cut short by the transport after a page is
    resumed from that page on: the state flushed last holds the skip offset
    of the last page written, and the next [paginated_sync] of the stream
    asks the paginator for the pages from that offset. *)
Theorem crash_then_resume
    (tap_stream_id : IDS.t) (req req' : Request) (start start' : string)
    (ctx : Ctx) (pages : list Page) (page : Page) (e : Exn) :
  paginate (client ctx) tap_stream_id req
    (default 0 (offsets (state ctx) !! (tap_stream_id, "skip")))
    = yield_all (pages ++ [page]) (Fails e) ->
  Forall (fun page =>
            Forall (has_field (BOOK_KEYS tap_stream_id))
                   (transformed tap_stream_id ctx page)) (pages ++ [page]) ->
  exists ctx',
    paginated_sync tap_stream_id req start ctx = (Raised e, ctx') /\
    persisted ctx' = Some (state ctx') /\
    offsets (state ctx') !! (tap_stream_id, "skip") = Some (next_skip page) /\
    exists events,
      trace (paginated_sync tap_stream_id req' start' ctx').2
        = trace ctx' ++ EPaginate tap_stream_id req' (next_skip page) :: events.
Proof.
  intros Hstream Hall. rewrite paginated_sync_unfold, Hstream, yield_all_snoc.
  apply Forall_app in Hall as [Hpages Hpage].
  apply Forall_cons in Hpage as [Hpage _].
  destruct (for_pages_yield_all tap_stream_id start
              (schema_dt_paths ctx tap_stream_id) pages (Yield page (Fails e))
              start (entering tap_stream_id req ctx) eq_refl Hpages)
    as (newer & ctx1 & -> & Hpaths).
  unfold transformed in Hpage. rewrite <- Hpaths in Hpage.
  rewrite (for_pages_step _ _ _ _ _ _ Hpage). cbn [for_pages]. run_sync.
  eexists. split; [reflexivity|].
  assert (offsets (state (after_page tap_stream_id start page ctx1))
            !! (tap_stream_id, "skip") = Some (next_skip page)) as Hskip.
  { unfold after_page. cbn [state offsets]. apply lookup_insert_eq. }
  split; [|split; [done|]].
  - unfold persisted, after_page. cbn [trace state]. by rewrite !last_state_app.
  - destruct (paginated_sync_trace tap_stream_id req' start'
                (after_page tap_stream_id start page ctx1)) as [events Htrace].
    exists events. by rewrite Htrace, Hskip.
Qed.

(** A completed [paginated_sync] leaves nothing to resume: the next
    [paginated_sync] of the stream asks the paginator for the pages from the
    start. *)
Theorem completed_then_from_the_start
    (tap_stream_id : IDS.t) (req req' : Request) (start start' : string)
    (ctx ctx' : Ctx) :
  paginated_sync tap_stream_id req start ctx = (Return tt, ctx') ->
  exists events,
    trace (paginated_sync tap_stream_id req' start' ctx').2
      = trace ctx' ++ EPaginate tap_stream_id req' 0 :: events.
Proof.
  intros (_ & _ & _ & _ & Hoff & _)%paginated_sync_Return.
  destruct (paginated_sync_trace tap_stream_id req' start' ctx')
    as [events Htrace].
  exists events. by rewrite Htrace, Hoff.
Qed.

(** *** The loop of the event log, page by page *)

Lemma dump_payloads_ok events :
  Forall (fun e => is_Some (e !! "data") /\ is_Some (e !! "previous_data")) events ->
  dump_payloads events = Return (map dump_event events).
Proof.
  induction 1 as [|event rest [[x Hx] [y Hy]] _ IH]; [done|].
  rewrite dump_payloads_cons, Hx, Hy, IH. cbn [obind map].
  unfold dump_event. by rewrite Hx, Hy.
Qed.

Lemma dump_payloads_Return events dumped :
  dump_payloads events = Return dumped ->
  Forall (fun e => is_Some (e !! "data") /\ is_Some (e !! "previous_data")) events /\
  dumped = map dump_event events.
Proof.
  intros Hdump.
  destruct (dump_payloads_cases events)
    as [Hr|[Hr|(dumped' & Hr & Hboth & _)]]; try congruence.
  split; [done|]. rewrite (dump_payloads_ok _ Hboth) in Hdump. congruence.
Qed.

(** The loop over the payloads returns exactly when every event holds both
    payloads. It then keeps the number and the order of the events, replaces
    [data] and [previous_data] of each by the JSON text of what they held
    and leaves every other field as it was. *)
Theorem payloads_become_text (events dumped : list Record) :
  dump_payloads events = Return dumped ->
  length dumped = length events /\
  Forall2 (fun e d =>
             (exists x, e !! "data" = Some x /\
                        d !! "data" = Some (VStr (json_dumps x))) /\
             (exists x, e !! "previous_data" = Some x /\
                        d !! "previous_data" = Some (VStr (json_dumps x))) /\
             (forall key, key <> "data" -> key <> "previous_data" ->
                          d !! key = e !! key))
          events dumped.
Proof.
  intros [Hboth ->]%dump_payloads_Return. split; [apply length_map|].
  induction Hboth as [|event rest [[x Hx] [y Hy]] _ IH]; [constructor|].
  cbn [map]. constructor; [|done]. unfold dump_event. rewrite Hx, Hy.
  cbn [default]. split; [|split].
  - exists x. split; [done|]. rewrite lookup_insert_ne by done.
    apply lookup_insert_eq.
  - exists y. split; [done|]. apply lookup_insert_eq.
  - intros key Hd Hp. by rewrite !lookup_insert_ne.
Qed.

Lemma dump_event_other event key :
  key <> "data" -> key <> "previous_data" ->
  dump_event event !! key = event !! key.
Proof. intros Hd Hp. unfold dump_event. by rewrite !lookup_insert_ne. Qed.

(** A page of events that hold their payloads and their [date_updated] is
    written whole, unfiltered, before the cursor is looked at. When the
    response holds an empty cursor, the loop ends there with the maximum
    over the page and a single request made; when it holds no cursor at all,
    the loop raises the lookup error after the events were written, the
    state being as before. *)
Theorem last_page_and_absent_cursor
    (fuel : nat) (formatted_start max_bookmark : string) (cursor_next : value)
    (ctx : Ctx) (response : Record) (c : Client) (data : value)
    (raw : list Record) :
  request_with_handling (client ctx) IDS.EVENT_LOG
    (create_request IDS.EVENT_LOG (event_log_params formatted_start cursor_next))
    = (Return response, c) ->
  response !! "data" = Some data ->
  truthy data = true ->
  records_of data = Return raw ->
  Forall (fun e => is_Some (e !! "data") /\ is_Some (e !! "previous_data"))
         (transform_dts raw (schema_dt_paths ctx IDS.EVENT_LOG)) ->
  Forall (has_field "date_updated")
         (transform_dts raw (schema_dt_paths ctx IDS.EVENT_LOG)) ->
  let events := map dump_event
                    (transform_dts raw (schema_dt_paths ctx IDS.EVENT_LOG)) in
  (forall next,
     response !! "cursor_next" = Some next -> truthy next = false ->
     exists ctx',
       event_log_loop (S fuel) formatted_start max_bookmark cursor_next ctx
         = (Return (max_of "date_updated" max_bookmark events), ctx') /\
       emitted IDS.EVENT_LOG (trace ctx')
         = emitted IDS.EVENT_LOG (trace ctx) ++ events /\
       length (requests_of (trace ctx'))
         = S (length (requests_of (trace ctx)))) /\
  (response !! "cursor_next" = None ->
     exists ctx',
       event_log_loop (S fuel) formatted_start max_bookmark cursor_next ctx
         = (Raised (KeyError "cursor_next"), ctx') /\
       emitted IDS.EVENT_LOG (trace ctx')
         = emitted IDS.EVENT_LOG (trace ctx) ++ events /\
       state ctx' = state ctx).
Proof.
  intros Hreq Hdata Htruthy Hraw Hboth Hdate events.
  assert (Forall (has_field "date_updated") events) as Hdate'.
  { subst events. apply Forall_map. eapply Forall_impl; [exact Hdate|].
    intros e [s Hs]. exists s. by rewrite dump_event_other. }
  assert (forall tr : list Event,
            emitted IDS.EVENT_LOG
              ((tr ++ [ERequest IDS.EVENT_LOG
                         (create_request IDS.EVENT_LOG
                            (event_log_params formatted_start cursor_next))
                         (Return response)])
                 ++ map (ERecord IDS.EVENT_LOG) events
                 ++ [ECounter IDS.EVENT_LOG (length events)])
            = emitted IDS.EVENT_LOG tr ++ events) as Hem.
  { intros tr. rewrite !emitted_app, emitted_records. cbn.
    by rewrite !app_nil_r. }
  split.
  - intros next Hnext Hfalsy. rewrite event_log_loop_S. cbv zeta.
    rewrite Hreq. unfold getitem. rewrite Hdata, Htruthy, Hraw. cbn [negb].
    rewrite (dump_payloads_ok _ Hboth). fold events.
    rewrite (new_max_bookmark_ok _ _ max_bookmark Hdate'), Hnext, Hfalsy.
    cbn [negb]. eexists. split; [reflexivity|]. cbn [trace]. split; [apply Hem|].
    rewrite !requests_of_app, requests_of_records. cbn.
    rewrite !length_app. cbn. lia.
  - intros Hnone. rewrite event_log_loop_S. cbv zeta.
    rewrite Hreq. unfold getitem. rewrite Hdata, Htruthy, Hraw. cbn [negb].
    rewrite (dump_payloads_ok _ Hboth). fold events.
    rewrite (new_max_bookmark_ok _ _ max_bookmark Hdate'), Hnone.
    eexists. split; [reflexivity|]. cbn [trace state]. split; [apply Hem|done].
Qed.

(** *** The table of the streams *)

(** The table lists each of the six streams once, and the strategy it gives
    a stream is [sync_fn] of that stream: the basic paginator for the custom
    fields, the tasks and the users, and a strategy of its own for each of
    the leads, the activities and the event log. *)
Theorem streams_lists_each_stream_once :
  NoDup stream_ids /\
  (forall t, In t stream_ids) /\
  (forall t strategy, In (t, strategy) streams -> strategy = sync_fn t).
Proof.
  split; [|split].
  - apply (bool_decide_unpack _). by vm_compute.
  - intros []; cbn; tauto.
  - intros t strategy Hin. cbn in Hin.
    repeat destruct Hin as [[= <- <-]|Hin]; try done.
Qed.

End MoreFacts.


#[local] Existing Instance Scripted.collaborators.

(** A run is its outcome and the context it ends in. *)
Lemma run_eq {A B : Type} (run : A * B) (outcome : A) :
  run.1 = outcome -> run = (outcome, run.2).
Proof. intros <-. by destruct run. Qed.

Section Scenarios.
Local Open Scope list_scope.

(** The scenario of the specification: of the two tasks only the newer is
    written and the bookmark becomes its date. *)
Example tasks_scenario :
  (sync_fn IDS.TASKS 0 Runs.noon Runs.tasks).1 = Return tt /\
  emitted IDS.TASKS (trace (sync_fn IDS.TASKS 0 Runs.noon Runs.tasks).2)
    = [Runs.task_new] /\
  bookmarks (state (sync_fn IDS.TASKS 0 Runs.noon Runs.tasks).2)
    !! bookmark IDS.TASKS = Some "2020-01-02T00:00:00.000000Z".
Proof. repeat apply conj; vm_compute; reflexivity. Qed.

(** C1 on the page of the two tasks. *)
Lemma C1_witness :
  Forall (has_field (BOOK_KEYS IDS.TASKS))
         (transformed IDS.TASKS Runs.tasks Runs.tasks_page) /\
  exists ctx1 newer,
    for_pages IDS.TASKS Runs.tasks_start (Yield Runs.tasks_page Exhausted)
              Runs.tasks_start Runs.tasks
      = for_pages IDS.TASKS Runs.tasks_start Exhausted newer ctx1 /\
    (exists written,
       emitted IDS.TASKS (trace ctx1)
         = emitted IDS.TASKS (trace Runs.tasks) ++ written /\
       forall r, In r written <->
         In r (transformed IDS.TASKS Runs.tasks Runs.tasks_page) /\
         exists s, r !! BOOK_KEYS IDS.TASKS = Some (VStr s) /\
                   str_ge s Runs.tasks_start = true) /\
    (forall r s, In r (transformed IDS.TASKS Runs.tasks Runs.tasks_page) ->
       r !! BOOK_KEYS IDS.TASKS = Some (VStr s) -> str_ge newer s = true) /\
    str_ge newer Runs.tasks_start = true /\
    (newer = Runs.tasks_start \/
     exists r, In r (transformed IDS.TASKS Runs.tasks Runs.tasks_page) /\
               r !! BOOK_KEYS IDS.TASKS = Some (VStr newer)).
Proof.
  assert (Forall (has_field (BOOK_KEYS IDS.TASKS))
                 (transformed IDS.TASKS Runs.tasks Runs.tasks_page)) as Hall.
  { repeat constructor; eexists; reflexivity. }
  split; [exact Hall|].
  exact (C1_page_writes_filtered_and_maximises_over_all
           IDS.TASKS Runs.tasks_start Runs.tasks_page Exhausted
           Runs.tasks_start Runs.tasks Hall).
Defined.

(** C2 on the tasks whose transport gives up after the first page. *)
Lemma C2_witness :
  fails (paginate (client Runs.tasks_crash) IDS.TASKS (create_request IDS.TASKS ∅)
           (default 0 (offsets (state Runs.tasks_crash) !! (IDS.TASKS, "skip"))))
    = true /\
  exists e ctx',
    paginated_sync IDS.TASKS (create_request IDS.TASKS ∅) Runs.tasks_start
                   Runs.tasks_crash = (Raised e, ctx') /\
    bookmarks (state ctx') = bookmarks (state Runs.tasks_crash).
Proof.
  assert (fails (paginate (client Runs.tasks_crash) IDS.TASKS
                   (create_request IDS.TASKS ∅)
                   (default 0 (offsets (state Runs.tasks_crash)
                                 !! (IDS.TASKS, "skip")))) = true) as Hfails.
  { reflexivity. }
  split; [exact Hfails|].
  exact (proj1 C2_error_leaves_bookmark IDS.TASKS (create_request IDS.TASKS ∅)
           Runs.tasks_start Runs.tasks_crash Hfails).
Defined.

(** A crash after the first page of the tasks: the run ends with the error
    of the transport and the bookmark is the one from before. *)
Example crash_scenario :
  sync_fn IDS.TASKS 0 Runs.noon Runs.tasks_crash
    = (Raised (TransportError "timeout"), Runs.tasks_crash_end) /\
  bookmarks (state Runs.tasks_crash_end) !! bookmark IDS.TASKS
    = Some Runs.tasks_start.
Proof.
  split; [|vm_compute; reflexivity].
  apply (run_eq (sync_fn IDS.TASKS 0 Runs.noon Runs.tasks_crash)).
  vm_compute. reflexivity.
Qed.

(** C3. The activities stream with a look-back window of sixty seconds
    and nothing new to fetch: each completed sync writes no record and sets
    the bookmark a minute before the one it started from, in second
    precision; two syncs in a row take it from 00:00:10 to 23:59:10 and on
    to 23:58:10 of the day before. *)
Theorem C3_idle_activities_bookmark_moves_back :
  (sync_activities Runs.activities_idle).1 = Return tt /\
  (sync_activities Runs.activities_idle_once).1 = Return tt /\
  emitted IDS.ACTIVITIES (trace Runs.activities_idle_twice) = [] /\
  bookmarks (state Runs.activities_idle) !! bookmark IDS.ACTIVITIES
    = Some "2020-01-01T00:00:10.000000Z" /\
  bookmarks (state Runs.activities_idle_once) !! bookmark IDS.ACTIVITIES
    = Some "2019-12-31T23:59:10" /\
  bookmarks (state Runs.activities_idle_twice) !! bookmark IDS.ACTIVITIES
    = Some "2019-12-31T23:58:10" /\
  str_lt "2019-12-31T23:59:10" "2020-01-01T00:00:10.000000Z" = true /\
  str_lt "2019-12-31T23:58:10" "2019-12-31T23:59:10" = true.
Proof. repeat apply conj; vm_compute; reflexivity. Qed.

(** C4 on the event log at noon. *)
Lemma C4_witness :
  sync_event_log 5 Runs.noon Runs.events = (Return tt, Runs.events_end) /\
  exists written committed_bookmark,
    emitted IDS.EVENT_LOG (trace Runs.events_end)
      = emitted IDS.EVENT_LOG (trace Runs.events) ++ written /\
    bookmarks (state Runs.events_end) !! bookmark IDS.EVENT_LOG
      = Some committed_bookmark /\
    committed_bookmark
      = str_min (singer_strftime (datetime.sub_seconds Runs.noon 300))
                (max_of "date_updated"
                        (watermark Runs.events (bookmark IDS.EVENT_LOG)) written) /\
    str_le committed_bookmark
           (singer_strftime (datetime.sub_seconds Runs.noon 300)) = true /\
    str_le committed_bookmark
           (max_of "date_updated"
                   (watermark Runs.events (bookmark IDS.EVENT_LOG)) written) = true.
Proof.
  assert (sync_event_log 5 Runs.noon Runs.events = (Return tt, Runs.events_end))
    as Hrun.
  { apply (run_eq (sync_event_log 5 Runs.noon Runs.events)).
    vm_compute. reflexivity. }
  split; [exact Hrun|].
  exact (C4_event_log_bookmark_is_clamped 5 Runs.noon Runs.events
           Runs.events_end Hrun).
Defined.

(** The scenario of the specification: at noon an event of 11:56 clamps
    the bookmark to 11:55. *)
Example clamp_scenario :
  bookmarks (state Runs.events_end) !! bookmark IDS.EVENT_LOG
    = Some "2024-01-01T11:55:00.000000Z".
Proof. vm_compute. done. Qed.

(** C5, refuted as stated. The event log at noon completes, having written
    one event whose [date_updated] is 11:56; the bookmark it sets is 11:55,
    which is the value of no record written, and no state was flushed at
    all, so that no flushed bookmark is the maximum either. *)
Lemma C5_counterexample :
  (sync_fn IDS.EVENT_LOG 5 Runs.noon Runs.events).1 = Return tt /\
  emitted IDS.EVENT_LOG
          (trace (sync_fn IDS.EVENT_LOG 5 Runs.noon Runs.events).2)
    = [Runs.event_written] /\
  is_max_among "date_updated" "2024-01-01T11:56:00.000000Z"
               [Runs.event_written] /\
  bookmarks (state (sync_fn IDS.EVENT_LOG 5 Runs.noon Runs.events).2)
    !! bookmark IDS.EVENT_LOG = Some "2024-01-01T11:55:00.000000Z" /\
  ~ is_max_among "date_updated" "2024-01-01T11:55:00.000000Z"
                 [Runs.event_written] /\
  persisted (sync_fn IDS.EVENT_LOG 5 Runs.noon Runs.events).2 = None.
Proof.
  apply conj; [vm_compute; reflexivity|].
  apply conj; [vm_compute; reflexivity|]. apply conj.
  { split.
    - exists Runs.event_written. split; [by left|]. vm_compute. reflexivity.
    - intros r s [<-|[]] Hs. vm_compute in Hs. injection Hs as <-.
      vm_compute. reflexivity. }
  apply conj; [vm_compute; reflexivity|].
  apply conj; [|vm_compute; reflexivity].
  intros [(r & [<-|[]] & Hr) _]. vm_compute in Hr. discriminate.
Qed.

(** C5 (amended) on the tasks stream. *)
Lemma C5_witness :
  sync_fn IDS.TASKS 0 Runs.noon Runs.tasks
    = (Return tt, (sync_fn IDS.TASKS 0 Runs.noon Runs.tasks).2) /\
  (IDS.TASKS <> IDS.EVENT_LOG ->
     exists start written,
       paginated_start IDS.TASKS Runs.tasks = Some start /\
       persisted (sync_fn IDS.TASKS 0 Runs.noon Runs.tasks).2
         = Some (state (sync_fn IDS.TASKS 0 Runs.noon Runs.tasks).2) /\
       (forall key,
          offsets (state (sync_fn IDS.TASKS 0 Runs.noon Runs.tasks).2)
            !! (IDS.TASKS, key) = None) /\
       emitted IDS.TASKS (trace (sync_fn IDS.TASKS 0 Runs.noon Runs.tasks).2)
         = emitted IDS.TASKS (trace Runs.tasks) ++ written /\
       (written = [] ->
          bookmarks (state (sync_fn IDS.TASKS 0 Runs.noon Runs.tasks).2)
            !! bookmark IDS.TASKS = Some start) /\
       (written <> [] ->
          exists m,
            bookmarks (state (sync_fn IDS.TASKS 0 Runs.noon Runs.tasks).2)
              !! bookmark IDS.TASKS = Some m /\
            is_max_among (BOOK_KEYS IDS.TASKS) m written)).
Proof.
  assert (sync_fn IDS.TASKS 0 Runs.noon Runs.tasks
            = (Return tt, (sync_fn IDS.TASKS 0 Runs.noon Runs.tasks).2)) as Hrun.
  { apply run_eq. vm_compute. reflexivity. }
  split; [exact Hrun|].
  exact (proj1 (C5_completed_sync_state IDS.TASKS 0 Runs.noon Runs.tasks
                  _ Hrun)).
Defined.

(** C6, refuted as stated. The tasks stream yields its page and the
    transport gives up on the next request: the page was written, the state
    flushed after it holds the skip offset 2, yet its bookmark is still the
    one from before the sync and not the maximum so far, the date of the
    newer task. *)
Lemma C6_counterexample :
  (sync_fn IDS.TASKS 0 Runs.noon Runs.tasks_crash).1
    = Raised (TransportError "timeout") /\
  emitted IDS.TASKS (trace Runs.tasks_crash_end) = [Runs.task_new] /\
  max_of "date_updated" Runs.tasks_start
         (transformed IDS.TASKS Runs.tasks_crash Runs.tasks_page)
    = "2020-01-02T00:00:00.000000Z" /\
  exists flushed,
    persisted Runs.tasks_crash_end = Some flushed /\
    offsets flushed !! (IDS.TASKS, "skip") = Some 2 /\
    bookmarks flushed !! bookmark IDS.TASKS = Some Runs.tasks_start /\
    bookmarks flushed !! bookmark IDS.TASKS
      <> Some "2020-01-02T00:00:00.000000Z".
Proof.
  apply conj; [vm_compute; reflexivity|].
  apply conj; [vm_compute; reflexivity|].
  apply conj; [vm_compute; reflexivity|].
  eexists. apply conj; [vm_compute; reflexivity|].
  apply conj; [vm_compute; reflexivity|].
  apply conj; [vm_compute; reflexivity|].
  vm_compute. discriminate.
Qed.

(** C6 (amended) on the page of the two tasks. *)
Lemma C6_witness :
  Forall (has_field (BOOK_KEYS IDS.TASKS))
         (transformed IDS.TASKS Runs.tasks Runs.tasks_page) /\
  exists ctx1 newer events,
    for_pages IDS.TASKS Runs.tasks_start (Yield Runs.tasks_page Exhausted)
              Runs.tasks_start Runs.tasks
      = for_pages IDS.TASKS Runs.tasks_start Exhausted newer ctx1 /\
    trace ctx1
      = trace Runs.tasks
          ++ EPage IDS.TASKS Runs.tasks_page :: events ++ [EState (state ctx1)] /\
    persisted ctx1 = Some (state ctx1) /\
    offsets (state ctx1) !! (IDS.TASKS, "skip")
      = Some (next_skip Runs.tasks_page) /\
    bookmarks (state ctx1) = bookmarks (state Runs.tasks).
Proof.
  assert (Forall (has_field (BOOK_KEYS IDS.TASKS))
                 (transformed IDS.TASKS Runs.tasks Runs.tasks_page)) as Hall.
  { repeat constructor; eexists; reflexivity. }
  split; [exact Hall|].
  exact (C6_page_persists_offset_only
           IDS.TASKS Runs.tasks_start Runs.tasks_page Exhausted
           Runs.tasks_start Runs.tasks Hall).
Defined.

(** C7, refuted as stated. The event log at noon completes, having fetched
    a page and written its event, and has flushed no state: neither after
    the page nor once the bookmark was set. *)
Lemma C7_counterexample :
  (sync_fn IDS.EVENT_LOG 5 Runs.noon Runs.events).1 = Return tt /\
  requests_of (trace Runs.events_end)
    = [(Runs.events_request, Return Runs.events_response)] /\
  emitted IDS.EVENT_LOG (trace Runs.events_end) = [Runs.event_written] /\
  bookmarks (state Runs.events_end) !! bookmark IDS.EVENT_LOG
    = Some "2024-01-01T11:55:00.000000Z" /\
  flushes (trace Runs.events_end) = [].
Proof. repeat apply conj; vm_compute; reflexivity. Qed.

(** C7 (amended) on the page of the two tasks. *)
Lemma C7_witness :
  Forall (has_field (BOOK_KEYS IDS.TASKS))
         (transformed IDS.TASKS Runs.tasks Runs.tasks_page) /\
  exists ctx1 newer events,
    for_pages IDS.TASKS Runs.tasks_start (Yield Runs.tasks_page Exhausted)
              Runs.tasks_start Runs.tasks
      = for_pages IDS.TASKS Runs.tasks_start Exhausted newer ctx1 /\
    trace ctx1 = trace Runs.tasks ++ events ++ [EState (state ctx1)].
Proof.
  assert (Forall (has_field (BOOK_KEYS IDS.TASKS))
                 (transformed IDS.TASKS Runs.tasks Runs.tasks_page)) as Hall.
  { repeat constructor; eexists; reflexivity. }
  split; [exact Hall|].
  exact (proj1 C7_flushes_of_the_strategies
           IDS.TASKS Runs.tasks_start Runs.tasks_page Exhausted
           Runs.tasks_start Runs.tasks Hall).
Defined.

(** C8, refuted as stated. The event log answers without a [data] field:
    the sync does not end normally, it raises the lookup error. *)
Lemma C8_counterexample :
  Runs.dataless_response !! "data" = None /\
  (sync_fn IDS.EVENT_LOG 5 Runs.noon Runs.events_dataless).1
    = Raised (KeyError "data") /\
  (sync_fn IDS.EVENT_LOG 5 Runs.noon Runs.events_dataless).1 <> Return tt.
Proof. vm_compute. done. Qed.

(** C8 (amended) on the event log answering with an empty [data]. *)
Lemma C8_witness :
  request_with_handling (client Runs.events_empty) IDS.EVENT_LOG
    (create_request IDS.EVENT_LOG
       (event_log_params "2024-01-01T00:00:00" VNone))
    = (Return Runs.empty_response, Scripted.mk Exhausted []) /\
  ((forall data,
      Runs.empty_response !! "data" = Some data -> truthy data = false ->
      exists ctx',
        event_log_loop 5 "2024-01-01T00:00:00" "2024-01-01T00:00:00.000000Z"
                       VNone Runs.events_empty
          = (Return "2024-01-01T00:00:00.000000Z", ctx') /\
        emitted IDS.EVENT_LOG (trace ctx')
          = emitted IDS.EVENT_LOG (trace Runs.events_empty)) /\
   (Runs.empty_response !! "data" = None ->
      exists ctx',
        event_log_loop 5 "2024-01-01T00:00:00" "2024-01-01T00:00:00.000000Z"
                       VNone Runs.events_empty
          = (Raised (KeyError "data"), ctx'))).
Proof.
  assert (request_with_handling (client Runs.events_empty) IDS.EVENT_LOG
            (create_request IDS.EVENT_LOG
               (event_log_params "2024-01-01T00:00:00" VNone))
            = (Return Runs.empty_response, Scripted.mk Exhausted [])) as Hreq.
  { reflexivity. }
  split; [exact Hreq|].
  exact (C8_empty_data_ends_loop_absent_data_raises
           4 "2024-01-01T00:00:00" "2024-01-01T00:00:00.000000Z" VNone
           Runs.events_empty Runs.empty_response (Scripted.mk Exhausted [])
           Hreq).
Defined.

(** The scenario of the specification: an empty first page ends the loop
    at once and the bookmark stays at the start watermark. *)
Example empty_page_scenario :
  (sync_fn IDS.EVENT_LOG 5 Runs.noon Runs.events_empty).1 = Return tt /\
  bookmarks (state (sync_fn IDS.EVENT_LOG 5 Runs.noon Runs.events_empty).2)
    !! bookmark IDS.EVENT_LOG = Some "2024-01-01T00:00:00.000000Z".
Proof. vm_compute. done. Qed.

(** C9 on the leads, started from the configured date. *)
Lemma C9_witness :
  pendulum_parse (watermark Runs.tasks (bookmark IDS.LEADS))
    = Some (datetime.mk 2019 1 1 0 0 0 0) /\
  exists events,
    trace (sync_leads Runs.tasks).2 =
    trace Runs.tasks
      ++ EPaginate IDS.LEADS
           (mkRequest "/lead/"
              {["query" :=
                  VStr ("date_updated>=" ++ dquote
                        ++ minute_text (datetime.mk 2019 1 1 0 0 0 0) ++ dquote
                        ++ " sort:date_updated")%string]})
           (default 0 (offsets (state Runs.tasks) !! (IDS.LEADS, "skip")))
      :: events.
Proof.
  assert (pendulum_parse (watermark Runs.tasks (bookmark IDS.LEADS))
            = Some (datetime.mk 2019 1 1 0 0 0 0)) as Hdt.
  { vm_compute. reflexivity. }
  split; [exact Hdt|].
  exact (proj1 C9_request_parameters Runs.tasks _ Hdt).
Defined.

(** The texts the requests carry, on a start with seconds and a
    fraction. *)
Example request_texts :
  minute_text (datetime.mk 2020 3 7 9 5 42 123456) = "2020-03-07T09:05" /\
  second_text (datetime.mk 2020 3 7 9 5 42 123456) = "2020-03-07T09:05:42".
Proof. vm_compute. done. Qed.

(** C10 on the tasks page with a record without [date_updated]. *)
Lemma C10_witness :
  meets_missing_field IDS.TASKS (schema_dt_paths Runs.tasks_bare IDS.TASKS)
    (paginate (client Runs.tasks_bare) IDS.TASKS (create_request IDS.TASKS ∅)
       (default 0 (offsets (state Runs.tasks_bare) !! (IDS.TASKS, "skip")))) /\
  exists ctx',
    paginated_sync IDS.TASKS (create_request IDS.TASKS ∅) Runs.tasks_start
                   Runs.tasks_bare
      = (Raised (KeyError (BOOK_KEYS IDS.TASKS)), ctx') /\
    bookmarks (state ctx') = bookmarks (state Runs.tasks_bare).
Proof.
  assert (meets_missing_field IDS.TASKS
            (schema_dt_paths Runs.tasks_bare IDS.TASKS)
            (paginate (client Runs.tasks_bare) IDS.TASKS
               (create_request IDS.TASKS ∅)
               (default 0 (offsets (state Runs.tasks_bare)
                             !! (IDS.TASKS, "skip"))))) as Hmeets.
  { hnf. split.
    - apply Forall_cons. split; [right; eexists; reflexivity|].
      apply Forall_cons. split; [left; reflexivity|]. by apply Forall_nil.
    - left. apply Exists_cons_tl, Exists_cons_hd. reflexivity. }
  split; [exact Hmeets|].
  exact (proj1 C10_missing_field_aborts IDS.TASKS (create_request IDS.TASKS ∅)
           Runs.tasks_start Runs.tasks_bare Hmeets).
Defined.

End Scenarios.

Section MoreScenarios.
Local Open Scope list_scope.

Lemma tasks_run :
  sync_fn IDS.TASKS 0 Runs.noon Runs.tasks = (Return tt, MoreRuns.tasks_end).
Proof.
  apply (run_eq (sync_fn IDS.TASKS 0 Runs.noon Runs.tasks)).
  vm_compute. reflexivity.
Qed.

Lemma events_run :
  sync_event_log 5 Runs.noon Runs.events = (Return tt, Runs.events_end).
Proof.
  apply (run_eq (sync_event_log 5 Runs.noon Runs.events)).
  vm_compute. reflexivity.
Qed.

Lemma tasks_page_fields :
  Forall (has_field (BOOK_KEYS IDS.TASKS))
         (transformed IDS.TASKS Runs.tasks Runs.tasks_page).
Proof. repeat constructor; eexists; reflexivity. Qed.

(** The two tasks: the maximum is the date of the newer. *)
Lemma new_max_bookmark_is_maximum_witness :
  new_max_bookmark Runs.tasks_start [Runs.task_new; Runs.task_old] "date_updated"
    = Return MoreRuns.task_new_date /\
  (str_ge MoreRuns.task_new_date Runs.tasks_start = true /\
   (forall r s, In r [Runs.task_new; Runs.task_old] ->
      r !! "date_updated" = Some (VStr s) ->
      str_ge MoreRuns.task_new_date s = true) /\
   (MoreRuns.task_new_date = Runs.tasks_start \/
    exists r, In r [Runs.task_new; Runs.task_old] /\
              r !! "date_updated" = Some (VStr MoreRuns.task_new_date))).
Proof.
  assert (new_max_bookmark Runs.tasks_start [Runs.task_new; Runs.task_old]
            "date_updated" = Return MoreRuns.task_new_date) as Hmax.
  { vm_compute. reflexivity. }
  split; [exact Hmax|].
  exact (new_max_bookmark_is_maximum "date_updated" Runs.tasks_start
           MoreRuns.task_new_date [Runs.task_new; Runs.task_old] Hmax).
Defined.

(** The two tasks hold their dates: [new_max_bookmark] returns. *)
Lemma new_max_bookmark_returns_iff_witness :
  Forall (has_field "date_updated") [Runs.task_new; Runs.task_old] /\
  exists m,
    new_max_bookmark Runs.tasks_start [Runs.task_new; Runs.task_old]
      "date_updated" = Return m.
Proof.
  assert (Forall (has_field "date_updated") [Runs.task_new; Runs.task_old])
    as Hall.
  { repeat constructor; eexists; reflexivity. }
  split; [exact Hall|].
  exact (proj2 (new_max_bookmark_returns_iff "date_updated" Runs.tasks_start
                  [Runs.task_new; Runs.task_old]) Hall).
Defined.

(** The older task alone leaves the bookmark where it is. *)
Lemma new_max_bookmark_unchanged_witness :
  Forall (fun r => exists s, r !! "date_updated" = Some (VStr s) /\
                             str_ge Runs.tasks_start s = true)
         [Runs.task_old] /\
  new_max_bookmark Runs.tasks_start [Runs.task_old] "date_updated"
    = Return Runs.tasks_start.
Proof.
  assert (Forall (fun r => exists s, r !! "date_updated" = Some (VStr s) /\
                                     str_ge Runs.tasks_start s = true)
                 [Runs.task_old]) as Hall.
  { repeat constructor. eexists. split; reflexivity. }
  split; [exact Hall|].
  exact (new_max_bookmark_unchanged "date_updated" Runs.tasks_start
           [Runs.task_old] Hall).
Defined.

(** The page with a task without [date_updated]. *)
Lemma page_with_bad_record_writes_nothing_witness :
  ~ Forall (has_field (BOOK_KEYS IDS.TASKS))
           (transformed IDS.TASKS Runs.tasks_bare Runs.bare_page) /\
  exists e ctx',
    for_pages IDS.TASKS Runs.tasks_start (Yield Runs.bare_page Exhausted)
              Runs.tasks_start Runs.tasks_bare = (Raised e, ctx') /\
    (e = KeyError (BOOK_KEYS IDS.TASKS) \/ e = TypeError) /\
    state ctx' = state Runs.tasks_bare /\
    trace ctx' = trace Runs.tasks_bare ++ [EPage IDS.TASKS Runs.bare_page].
Proof.
  assert (~ Forall (has_field (BOOK_KEYS IDS.TASKS))
                   (transformed IDS.TASKS Runs.tasks_bare Runs.bare_page))
    as Hnot.
  { intros Hall. apply Forall_cons in Hall as [_ Hall].
    apply Forall_cons in Hall as [[s Hs] _]. vm_compute in Hs. discriminate. }
  split; [exact Hnot|].
  exact (page_with_bad_record_writes_nothing IDS.TASKS Runs.tasks_start
           Runs.bare_page Exhausted Runs.tasks_start Runs.tasks_bare Hnot).
Defined.

(** The tasks stream of one page completes. *)
Lemma paginated_sync_completes_iff_witness :
  well_keyed IDS.TASKS (schema_dt_paths Runs.tasks IDS.TASKS)
    (paginate (client Runs.tasks) IDS.TASKS (create_request IDS.TASKS ∅)
       (default 0 (offsets (state Runs.tasks) !! (IDS.TASKS, "skip")))) /\
  exists ctx',
    paginated_sync IDS.TASKS (create_request IDS.TASKS ∅) Runs.tasks_start
                   Runs.tasks = (Return tt, ctx').
Proof.
  assert (well_keyed IDS.TASKS (schema_dt_paths Runs.tasks IDS.TASKS)
            (paginate (client Runs.tasks) IDS.TASKS (create_request IDS.TASKS ∅)
               (default 0 (offsets (state Runs.tasks) !! (IDS.TASKS, "skip")))))
    as Hkeyed.
  { hnf. split; [exact tasks_page_fields|exact I]. }
  split; [exact Hkeyed|].
  exact (proj2 (paginated_sync_completes_iff IDS.TASKS
                  (create_request IDS.TASKS ∅) Runs.tasks_start Runs.tasks)
               Hkeyed).
Defined.

(** The tasks: what is written is at or after the bookmark. *)
Lemma written_records_from_start_witness :
  IDS.TASKS <> IDS.EVENT_LOG /\
  paginated_start IDS.TASKS Runs.tasks = Some Runs.tasks_start /\
  sync_fn IDS.TASKS 0 Runs.noon Runs.tasks = (Return tt, MoreRuns.tasks_end) /\
  exists written,
    emitted IDS.TASKS (trace MoreRuns.tasks_end)
      = emitted IDS.TASKS (trace Runs.tasks) ++ written /\
    forall r, In r written ->
      exists s, r !! BOOK_KEYS IDS.TASKS = Some (VStr s) /\
                str_ge s Runs.tasks_start = true.
Proof.
  assert (IDS.TASKS <> IDS.EVENT_LOG) as Hne by discriminate.
  assert (paginated_start IDS.TASKS Runs.tasks = Some Runs.tasks_start)
    as Hstart by reflexivity.
  split; [exact Hne|]. split; [exact Hstart|]. split; [exact tasks_run|].
  exact (written_records_from_start IDS.TASKS 0 Runs.noon Runs.tasks
           MoreRuns.tasks_end (Return tt) Runs.tasks_start Hne Hstart tasks_run).
Defined.

(** The tasks: one record written, one counted. *)
Lemma counter_matches_records_witness :
  sync_fn IDS.TASKS 0 Runs.noon Runs.tasks = (Return tt, MoreRuns.tasks_end) /\
  (counted IDS.TASKS (trace MoreRuns.tasks_end)
     + length (emitted IDS.TASKS (trace Runs.tasks))
   = counted IDS.TASKS (trace Runs.tasks)
     + length (emitted IDS.TASKS (trace MoreRuns.tasks_end)))%nat.
Proof.
  split; [exact tasks_run|].
  exact (counter_matches_records IDS.TASKS 0 Runs.noon Runs.tasks
           MoreRuns.tasks_end (Return tt) IDS.TASKS tasks_run).
Defined.

(** The tasks: no other stream is touched. *)
Lemma other_streams_untouched_witness :
  sync_fn IDS.TASKS 0 Runs.noon Runs.tasks = (Return tt, MoreRuns.tasks_end) /\
  ((forall t, t <> IDS.TASKS ->
      emitted t (trace MoreRuns.tasks_end) = emitted t (trace Runs.tasks)) /\
   (forall path, path.1 <> IDS.TASKS ->
      bookmarks (state MoreRuns.tasks_end) !! path
        = bookmarks (state Runs.tasks) !! path /\
      offsets (state MoreRuns.tasks_end) !! path
        = offsets (state Runs.tasks) !! path)).
Proof.
  split; [exact tasks_run|].
  exact (other_streams_untouched IDS.TASKS 0 Runs.noon Runs.tasks
           MoreRuns.tasks_end (Return tt) tasks_run).
Defined.

(** The tasks: the bookmark does not move back. *)
Lemma basic_and_leads_never_move_back_witness :
  IDS.TASKS <> IDS.ACTIVITIES /\ IDS.TASKS <> IDS.EVENT_LOG /\
  sync_fn IDS.TASKS 0 Runs.noon Runs.tasks = (Return tt, MoreRuns.tasks_end) /\
  exists m,
    bookmarks (state MoreRuns.tasks_end) !! bookmark IDS.TASKS = Some m /\
    str_ge m (watermark Runs.tasks (bookmark IDS.TASKS)) = true.
Proof.
  assert (IDS.TASKS <> IDS.ACTIVITIES) as Hact by discriminate.
  assert (IDS.TASKS <> IDS.EVENT_LOG) as Hlog by discriminate.
  split; [exact Hact|]. split; [exact Hlog|]. split; [exact tasks_run|].
  exact (basic_and_leads_never_move_back IDS.TASKS 0 Runs.noon Runs.tasks
           MoreRuns.tasks_end Hact Hlog tasks_run).
Defined.

(** The event log at noon, started from midnight. *)
Lemma event_log_bookmark_and_the_clock_witness :
  sync_event_log 5 Runs.noon Runs.events = (Return tt, Runs.events_end) /\
  exists m,
    bookmarks (state Runs.events_end) !! bookmark IDS.EVENT_LOG = Some m /\
    (str_le (watermark Runs.events (bookmark IDS.EVENT_LOG))
            (singer_strftime (datetime.sub_seconds Runs.noon 300)) = true ->
     str_ge m (watermark Runs.events (bookmark IDS.EVENT_LOG)) = true) /\
    (str_lt (singer_strftime (datetime.sub_seconds Runs.noon 300))
            (watermark Runs.events (bookmark IDS.EVENT_LOG)) = true ->
     m = singer_strftime (datetime.sub_seconds Runs.noon 300)).
Proof.
  split; [exact events_run|].
  exact (event_log_bookmark_and_the_clock 5 Runs.noon Runs.events
           Runs.events_end events_run).
Defined.

(** The tasks whose transport gives up after the page: resumed at 2. *)
Lemma crash_then_resume_witness :
  paginate (client Runs.tasks_crash) IDS.TASKS (create_request IDS.TASKS ∅)
    (default 0 (offsets (state Runs.tasks_crash) !! (IDS.TASKS, "skip")))
    = yield_all ([] ++ [Runs.tasks_page]) (Fails (TransportError "timeout")) /\
  Forall (fun page =>
            Forall (has_field (BOOK_KEYS IDS.TASKS))
                   (transformed IDS.TASKS Runs.tasks_crash page))
         ([] ++ [Runs.tasks_page]) /\
  exists ctx',
    paginated_sync IDS.TASKS (create_request IDS.TASKS ∅) Runs.tasks_start
                   Runs.tasks_crash
      = (Raised (TransportError "timeout"), ctx') /\
    persisted ctx' = Some (state ctx') /\
    offsets (state ctx') !! (IDS.TASKS, "skip")
      = Some (next_skip Runs.tasks_page) /\
    exists events,
      trace (paginated_sync IDS.TASKS (create_request IDS.TASKS ∅)
                            Runs.tasks_start ctx').2
        = trace ctx'
            ++ EPaginate IDS.TASKS (create_request IDS.TASKS ∅)
                 (next_skip Runs.tasks_page)
            :: events.
Proof.
  assert (paginate (client Runs.tasks_crash) IDS.TASKS
            (create_request IDS.TASKS ∅)
            (default 0 (offsets (state Runs.tasks_crash) !! (IDS.TASKS, "skip")))
          = yield_all ([] ++ [Runs.tasks_page])
                      (Fails (TransportError "timeout"))) as Hstream.
  { reflexivity. }
  assert (Forall (fun page =>
                    Forall (has_field (BOOK_KEYS IDS.TASKS))
                           (transformed IDS.TASKS Runs.tasks_crash page))
                 ([] ++ [Runs.tasks_page])) as Hall.
  { constructor; [exact tasks_page_fields|constructor]. }
  split; [exact Hstream|]. split; [exact Hall|].
  exact (crash_then_resume IDS.TASKS (create_request IDS.TASKS ∅)
           (create_request IDS.TASKS ∅) Runs.tasks_start Runs.tasks_start
           Runs.tasks_crash [] Runs.tasks_page (TransportError "timeout")
           Hstream Hall).
Defined.

(** The tasks, once completed, start again from the first page. *)
Lemma completed_then_from_the_start_witness :
  paginated_sync IDS.TASKS (create_request IDS.TASKS ∅) Runs.tasks_start
                 Runs.tasks
    = (Return tt,
       (paginated_sync IDS.TASKS (create_request IDS.TASKS ∅) Runs.tasks_start
                       Runs.tasks).2) /\
  exists events,
    trace (paginated_sync IDS.TASKS (create_request IDS.TASKS ∅)
             Runs.tasks_start
             (paginated_sync IDS.TASKS (create_request IDS.TASKS ∅)
                             Runs.tasks_start Runs.tasks).2).2
      = trace (paginated_sync IDS.TASKS (create_request IDS.TASKS ∅)
                              Runs.tasks_start Runs.tasks).2
          ++ EPaginate IDS.TASKS (create_request IDS.TASKS ∅) 0 :: events.
Proof.
  assert (paginated_sync IDS.TASKS (create_request IDS.TASKS ∅)
                         Runs.tasks_start Runs.tasks
          = (Return tt,
             (paginated_sync IDS.TASKS (create_request IDS.TASKS ∅)
                             Runs.tasks_start Runs.tasks).2)) as Hrun.
  { apply run_eq. vm_compute. reflexivity. }
  split; [exact Hrun|].
  exact (completed_then_from_the_start IDS.TASKS (create_request IDS.TASKS ∅)
           (create_request IDS.TASKS ∅) Runs.tasks_start Runs.tasks_start
           Runs.tasks _ Hrun).
Defined.

(** The event of the event log: both payloads become text. *)
Lemma payloads_become_text_witness :
  dump_payloads [Runs.event] = Return [Runs.event_written] /\
  (length [Runs.event_written] = length [Runs.event] /\
   Forall2 (fun e d =>
              (exists x, e !! "data" = Some x /\
                         d !! "data" = Some (VStr (json_dumps x))) /\
              (exists x, e !! "previous_data" = Some x /\
                         d !! "previous_data" = Some (VStr (json_dumps x))) /\
              (forall key, key <> "data" -> key <> "previous_data" ->
                           d !! key = e !! key))
           [Runs.event] [Runs.event_written]).
Proof.
  assert (dump_payloads [Runs.event] = Return [Runs.event_written]) as Hdump.
  { vm_compute. reflexivity. }
  split; [exact Hdump|].
  exact (payloads_become_text [Runs.event] [Runs.event_written] Hdump).
Defined.

(** The event log at noon: a page of one event and an empty cursor. *)
Lemma last_page_and_absent_cursor_witness :
  request_with_handling (client Runs.events) IDS.EVENT_LOG
    (create_request IDS.EVENT_LOG
       (event_log_params "2024-01-01T00:00:00" VNone))
    = (Return Runs.events_response, Scripted.mk Exhausted []) /\
  Runs.events_response !! "data" = Some (VList [VDict Runs.event]) /\
  truthy (VList [VDict Runs.event]) = true /\
  records_of (VList [VDict Runs.event]) = Return [Runs.event] /\
  Forall (fun e => is_Some (e !! "data") /\ is_Some (e !! "previous_data"))
         (transform_dts [Runs.event]
                        (schema_dt_paths Runs.events IDS.EVENT_LOG)) /\
  Forall (has_field "date_updated")
         (transform_dts [Runs.event]
                        (schema_dt_paths Runs.events IDS.EVENT_LOG)) /\
  let events := map dump_event
                    (transform_dts [Runs.event]
                       (schema_dt_paths Runs.events IDS.EVENT_LOG)) in
  (forall next,
     Runs.events_response !! "cursor_next" = Some next -> truthy next = false ->
     exists ctx',
       event_log_loop 5 "2024-01-01T00:00:00" MoreRuns.events_start VNone
                      Runs.events
         = (Return (max_of "date_updated" MoreRuns.events_start events), ctx') /\
       emitted IDS.EVENT_LOG (trace ctx')
         = emitted IDS.EVENT_LOG (trace Runs.events) ++ events /\
       length (requests_of (trace ctx'))
         = S (length (requests_of (trace Runs.events)))) /\
  (Runs.events_response !! "cursor_next" = None ->
     exists ctx',
       event_log_loop 5 "2024-01-01T00:00:00" MoreRuns.events_start VNone
                      Runs.events
         = (Raised (KeyError "cursor_next"), ctx') /\
       emitted IDS.EVENT_LOG (trace ctx')
         = emitted IDS.EVENT_LOG (trace Runs.events) ++ events /\
       state ctx' = state Runs.events).
Proof.
  assert (request_with_handling (client Runs.events) IDS.EVENT_LOG
            (create_request IDS.EVENT_LOG
               (event_log_params "2024-01-01T00:00:00" VNone))
          = (Return Runs.events_response, Scripted.mk Exhausted [])) as Hreq.
  { reflexivity. }
  assert (Runs.events_response !! "data" = Some (VList [VDict Runs.event]))
    as Hdata.
  { reflexivity. }
  assert (truthy (VList [VDict Runs.event]) = true) as Htruthy.
  { reflexivity. }
  assert (records_of (VList [VDict Runs.event]) = Return [Runs.event]) as Hraw.
  { reflexivity. }
  assert (Forall (fun e => is_Some (e !! "data") /\ is_Some (e !! "previous_data"))
                 (transform_dts [Runs.event]
                    (schema_dt_paths Runs.events IDS.EVENT_LOG))) as Hboth.
  { constructor; [|constructor]. split; eexists; reflexivity. }
  assert (Forall (has_field "date_updated")
                 (transform_dts [Runs.event]
                    (schema_dt_paths Runs.events IDS.EVENT_LOG))) as Hdate.
  { constructor; [|constructor]. eexists. reflexivity. }
  split; [exact Hreq|]. split; [exact Hdata|]. split; [exact Htruthy|].
  split; [exact Hraw|]. split; [exact Hboth|]. split; [exact Hdate|].
  exact (last_page_and_absent_cursor 4 "2024-01-01T00:00:00"
           MoreRuns.events_start VNone Runs.events Runs.events_response
           (Scripted.mk Exhausted []) (VList [VDict Runs.event]) [Runs.event]
           Hreq Hdata Htruthy Hraw Hboth Hdate).
Defined.

(** The tasks are in the table, with the basic paginator. *)
Lemma streams_lists_each_stream_once_witness :
  In (IDS.TASKS, fun _ _ => basic_paginator IDS.TASKS) streams /\
  (fun (_ : nat) (_ : datetime.t) => basic_paginator IDS.TASKS)
    = sync_fn IDS.TASKS.
Proof.
  assert (In (IDS.TASKS, fun (_ : nat) (_ : datetime.t) =>
                           basic_paginator IDS.TASKS) streams) as Hin.
  { do 3 right. left. reflexivity. }
  split; [exact Hin|].
  exact (proj2 (proj2 streams_lists_each_stream_once) IDS.TASKS _ Hin).
Defined.


End MoreScenarios.
